(** * TusaBot: the conversational state machine of [bot.py], embedded in Rocq

    The bot keeps one dictionary per user ([context.user_data]), one shared
    dictionary ([context.bot_data]) and a PostgreSQL table [users] ([db.py]).
    Every handler of [bot.py] is translated here into a function from the
    state it reads to the state it leaves and the messages it sends.

    Conventions of the embedding.
    - A Python [str] is a [string]; one character is one code point, so the
      embedding covers texts whose code points are below 256.  The character
      tables of [Py] are Python's tables restricted to that range.
    - A dictionary is a [gmap string value]; [d.get(k)] is [get d k],
      [d[k] = v] is [<[k:=v]> d] and [d.pop(k, None)] is [delete k d].
    - The outcome of every call that leaves the process (database, Telegram,
      VK) is an input of the handler, gathered in the record [oracle].
    - A handler returns the pair of its final state and its replies. *)

From Stdlib Require Import ZArith String Ascii List Bool Lia.
From stdpp Require Import base option list gmap strings.
Import ListNotations.

Local Open Scope string_scope.
Local Open Scope Z_scope.

(** ** Python's [str] methods and [int()] *)

Module Py.

Definition code (c : ascii) : Z := Z.of_N (N_of_ascii c).

Definition between (lo hi : Z) (c : ascii) : bool :=
  (lo <=? code c) && (code c <=? hi).

(** [str.isspace] on one character: TAB..CR, FS..US, space, NEL, NBSP. *)
Definition isspace (c : ascii) : bool :=
  between 9 13 c || between 28 32 c || (code c =? 133) || (code c =? 160).

(** Characters of category Nd: only the ASCII digits below 256. *)
Definition isdecimal (c : ascii) : bool := between 48 57 c.

(** [str.isdigit] on one character adds the superscripts 2, 3 and 1. *)
Definition isdigit_char (c : ascii) : bool :=
  isdecimal c || (code c =? 178) || (code c =? 179) || (code c =? 185).

(** [str.isalpha] on one character: ASCII letters, the ordinal
    indicators, the micro sign and the Latin-1 letters. *)
Definition isalpha_char (c : ascii) : bool :=
  between 65 90 c || between 97 122 c
  || (code c =? 170) || (code c =? 181) || (code c =? 186)
  || between 192 214 c || between 216 246 c || between 248 255 c.

(** [str.isalnum] on one character: alphabetic, decimal, digit or numeric
    (the vulgar fractions 188..190 are numeric). *)
Definition isalnum_char (c : ascii) : bool :=
  isalpha_char c || isdigit_char c || between 188 190 c.

(** The class [\w] of [re] on [str] patterns: alphanumeric or underscore. *)
Definition isword (c : ascii) : bool := isalnum_char c || (code c =? 95).

Fixpoint all_chars (p : ascii -> bool) (s : string) : bool :=
  match s with
  | EmptyString => true
  | String c r => p c && all_chars p r
  end.

Definition nonempty (s : string) : bool :=
  match s with EmptyString => false | String _ _ => true end.

(** [s.isdigit()] and [s.isalnum()]: false on the empty string. *)
Definition isdigit (s : string) : bool := nonempty s && all_chars isdigit_char s.
Definition isalnum (s : string) : bool := nonempty s && all_chars isalnum_char s.

Fixpoint lstrip_by (p : ascii -> bool) (s : string) : string :=
  match s with
  | EmptyString => EmptyString
  | String c r => if p c then lstrip_by p r else s
  end.

Fixpoint rstrip_by (p : ascii -> bool) (s : string) : string :=
  match s with
  | EmptyString => EmptyString
  | String c r =>
      match rstrip_by p r with
      | EmptyString => if p c then EmptyString else String c EmptyString
      | r' => String c r'
      end
  end.

(** [s.strip()] *)
Definition strip (s : string) : string := rstrip_by isspace (lstrip_by isspace s).

(** [s.lstrip(c)] for a one-character argument *)
Definition lstrip_char (c : ascii) (s : string) : string := lstrip_by (Ascii.eqb c) s.

(** [s.replace(c, '')] for a one-character pattern *)
Fixpoint remove_char (c : ascii) (s : string) : string :=
  match s with
  | EmptyString => EmptyString
  | String d r => if Ascii.eqb c d then remove_char c r else String d (remove_char c r)
  end.

(** [str.lower] on one character: A..Z and the upper-case Latin-1 letters
    move by 32; everything else below 256 is unchanged. *)
Definition lower_char (c : ascii) : ascii :=
  if between 65 90 c || between 192 214 c || between 216 222 c
  then ascii_of_N (Z.to_N (code c + 32)) else c.

Fixpoint lower (s : string) : string :=
  match s with
  | EmptyString => EmptyString
  | String c r => String (lower_char c) (lower r)
  end.

(** [s.startswith(p)] *)
Definition startswith (p s : string) : bool := String.prefix p s.

(** [s[n:]] *)
Fixpoint drop (n : nat) (s : string) : string :=
  match n, s with
  | O, _ => s
  | S _, EmptyString => EmptyString
  | S n', String _ r => drop n' r
  end.

(** [s[:n]] *)
Fixpoint take (n : nat) (s : string) : string :=
  match n, s with
  | O, _ => EmptyString
  | S _, EmptyString => EmptyString
  | S n', String c r => String c (take n' r)
  end.

(** [len(s)] *)
Definition len (s : string) : Z := Z.of_nat (String.length s).

(** [s.split(sep, 1)[1]] for a one-character separator: the text after
    the first separator, [None] (an [IndexError]) when there is none. *)
Fixpoint after_first (sep : ascii) (s : string) : option string :=
  match s with
  | EmptyString => None
  | String c r => if Ascii.eqb sep c then Some r else after_first sep r
  end.

(** The white space [int()] skips at both ends: what [Py_ISSPACE] accepts
    once the non-ASCII spaces have been turned into blanks. *)
Definition int_space (c : ascii) : bool :=
  between 9 13 c || (code c =? 32) || (code c =? 133) || (code c =? 160).

Definition digit_of (c : ascii) : option Z :=
  if isdecimal c then Some (code c - 48) else None.

(** Decimal digits with single underscores between them.  [seen] says
    that the previous character was a digit. *)
Fixpoint int_digits (acc : Z) (seen : bool) (s : string) : option Z :=
  match s with
  | EmptyString => if seen then Some acc else None
  | String c r =>
      match digit_of c with
      | Some d => int_digits (10 * acc + d) true r
      | None =>
          if Ascii.eqb c "_" && seen then int_digits acc false r else None
      end
  end.

Definition int_signed (s : string) : option Z :=
  match s with
  | String "+" r => int_digits 0 false r
  | String "-" r => Z.opp <$> int_digits 0 false r
  | _ => int_digits 0 false s
  end.

(** [int(s)]: [None] stands for [ValueError].  (CPython 3.11 also raises
    [ValueError] past 4300 digits; a Telegram message holds at most 4096
    characters, so that limit is never met here.) *)
Definition int (s : string) : option Z :=
  int_signed (rstrip_by int_space (lstrip_by int_space s)).

End Py.

(** ** Regular expressions, as far as [re.match] is used by [is_valid_url] *)

Module Re.

Inductive regex : Type :=
| Void
| Eps
| Cls (p : ascii -> bool)
| Cat (a b : regex)
| Alt (a b : regex)
| Star (a : regex).

Definition chr (c : ascii) : regex := Cls (Ascii.eqb c).

Fixpoint lit (s : string) : regex :=
  match s with
  | EmptyString => Eps
  | String c r => Cat (chr c) (lit r)
  end.

(** [a?] and [a+] *)
Definition opt (a : regex) : regex := Alt Eps a.
Definition plus (a : regex) : regex := Cat a (Star a).

Fixpoint nullable (r : regex) : bool :=
  match r with
  | Void => false
  | Eps => true
  | Cls _ => false
  | Cat a b => nullable a && nullable b
  | Alt a b => nullable a || nullable b
  | Star _ => true
  end.

(** The derivative of [r] by the character [c]. *)
Fixpoint deriv (c : ascii) (r : regex) : regex :=
  match r with
  | Void => Void
  | Eps => Void
  | Cls p => if p c then Eps else Void
  | Cat a b =>
      if nullable a then Alt (Cat (deriv c a) b) (deriv c b)
      else Cat (deriv c a) b
  | Alt a b => Alt (deriv c a) (deriv c b)
  | Star a => Cat (deriv c a) (Star a)
  end.

(** [s] as a whole belongs to the language of [r]. *)
Fixpoint fullmatch (r : regex) (s : string) : bool :=
  match s with
  | EmptyString => nullable r
  | String c t => fullmatch (deriv c r) t
  end.

Definition newline : ascii := ascii_of_N 10.

Definition chop_newline (s : string) : option string :=
  let n := String.length s in
  if String.eqb (Py.drop (n - 1) s) (String newline EmptyString)
  then Some (Py.take (n - 1) s) else None.

(** [re.match("^" r "$", s)]: without [re.MULTILINE], [$] holds at the
    end of [s] and just before a newline that ends [s]. *)
Definition match_anchored (r : regex) (s : string) : bool :=
  fullmatch r s
  || match chop_newline s with Some s' => fullmatch r s' | None => false end.

End Re.

(** ** The validators of [bot.py] *)

(** [[\w\-]] *)
Definition host_char (c : ascii) : bool := Py.isword c || Ascii.eqb c "-".

(** The characters listed in [[\w\-._~:/?#\[\]@!$&'()*+,;=%]]. *)
Definition path_punct : string := "-._~:/?#[]@!$&'()*+,;=%".

Fixpoint mem_char (c : ascii) (s : string) : bool :=
  match s with
  | EmptyString => false
  | String d r => Ascii.eqb c d || mem_char c r
  end.

Definition path_char (c : ascii) : bool := Py.isword c || mem_char c path_punct.

(** The pattern of [is_valid_url], group by group: the scheme [https?://],
    a host label [[\w\-]+], one or more further labels [(\.[\w\-]+)+], an
    optional port [(:\d+)?] and an optional path, a slash followed by any
    number of [path_char]s. *)
Definition url_pattern : Re.regex :=
  Re.Cat (Re.Cat (Re.lit "http") (Re.Cat (Re.opt (Re.chr "s")) (Re.lit "://")))
 (Re.Cat (Re.plus (Re.Cls host_char))
 (Re.Cat (Re.plus (Re.Cat (Re.chr ".") (Re.plus (Re.Cls host_char))))
 (Re.Cat (Re.opt (Re.Cat (Re.chr ":") (Re.plus (Re.Cls Py.isdecimal))))
         (Re.opt (Re.Cat (Re.chr "/") (Re.Star (Re.Cls path_char))))))).

(** [is_valid_url]: the guard [not url] rejects the empty string. *)
Definition is_valid_url (url : string) : bool :=
  if negb (Py.nonempty url) then false
  else Re.match_anchored url_pattern (Py.strip url).

(** [is_valid_caption]: every caller passes a [str]. *)
Definition is_valid_caption (c : string) : bool := Py.len c <=? 1024.

(** ** Values, dictionaries and the table [users] *)

(** The dictionary [poster_draft] of the authoring wizard.  It is created
    with its four keys and only their values change afterwards. *)
Record draft : Type := Draft {
  d_step : string;
  d_file_id : option string;
  d_caption : option string;
  d_ticket_url : option string }.

(** The values kept in [context.user_data]. *)
Inductive value : Type :=
| VNone
| VBool (b : bool)
| VInt (n : Z)
| VStr (s : string)
| VDraft (d : draft)
| VSet (s : gset string).

#[global] Instance draft_eq_dec : EqDecision draft.
Proof. solve_decision. Defined.

#[global] Instance value_eq_dec : EqDecision value.
Proof. solve_decision. Defined.

(** Python's truth value of an object. *)
Definition truthy (v : value) : bool :=
  match v with
  | VNone => false
  | VBool b => b
  | VInt n => negb (n =? 0)
  | VStr s => Py.nonempty s
  | VDraft _ => true
  | VSet s => negb (bool_decide (s = ∅))
  end.

(** [v is None] and [v == True] *)
Definition is_None (v : value) : bool :=
  match v with VNone => true | _ => false end.

Definition eq_True (v : value) : bool :=
  match v with
  | VBool b => b
  | VInt n => n =? 1
  | _ => false
  end.

(** [d.get(k)] *)
Definition get (d : gmap string value) (k : string) : value :=
  default VNone (d !! k).

Definition of_text (o : option string) : value :=
  match o with Some s => VStr s | None => VNone end.

Definition of_int (o : option Z) : value :=
  match o with Some n => VInt n | None => VNone end.

(** A value handed to a TEXT parameter of a query: [None] when the driver
    refuses it. *)
Definition as_text (v : value) : option (option string) :=
  match v with
  | VNone => Some None
  | VStr s => Some (Some s)
  | _ => None
  end.

(** A poster is a dictionary with the keys [file_id], [caption] and
    [ticket_url]; a value is a [str] or [None].  Posters are shared between
    [bot_data["poster"]] and the list [bot_data["all_posters"]], so they
    live in a store and are named by their address. *)
Abbreviation pdict := (gmap string (option string)).
Abbreviation loc := nat.

(** [p.get(k)] and the truth value of the result *)
Definition pget (p : pdict) (k : string) : option string := default None (p !! k).

Definition ptruthy (o : option string) : bool :=
  match o with Some s => Py.nonempty s | None => false end.

(** One row of the table [users]; [None] is SQL's NULL. *)
Record row : Type := Row {
  r_name : option string;
  r_gender : option string;
  r_age : option Z;
  r_vk_id : option string;
  r_username : option string }.

(** The two CHECK constraints of [init_schema]; NULL passes a CHECK. *)
Definition gender_check (g : option string) : bool :=
  match g with
  | Some s => String.eqb s "male" || String.eqb s "female"
  | None => true
  end.

Definition age_check (a : option Z) : bool :=
  match a with
  | Some n => (14 <=? n) && (n <=? 100)
  | None => true
  end.

Definition row_check (r : row) : bool := gender_check (r_gender r) && age_check (r_age r).

(** SQL's COALESCE of two arguments *)
Definition coalesce {A : Type} (x y : option A) : option A :=
  match x with Some _ => x | None => y end.

(** A value handed to a TEXT parameter: PostgreSQL has no text with the
    character U+0000 in it and refuses the query that passes one; NULL and
    every other text of the embedding are taken. *)
Definition NUL : ascii := ascii_of_N 0.

Definition text_ok (s : option string) : bool :=
  match s with
  | Some s => negb (mem_char NUL s)
  | None => true
  end.

(** What the server demands of the values of one [upsert_user] before it
    writes anything: texts it can store, and the two CHECK constraints on
    the row proposed for insertion. *)
Definition upsert_accepted (name gender : option string) (age : option Z)
    (vk_id username : option string) : bool :=
  text_ok name && text_ok gender && text_ok vk_id && text_ok username
  && gender_check gender && age_check age.

(** [upsert_user]: INSERT, or on a conflicting [tg_id] an UPDATE that keeps
    the stored column wherever the new one is NULL.  [None] stands for the
    exception raised when the server refuses a text or a CHECK constraint
    rejects the row; the table is then as it was.  ([tg_id] is a Telegram
    id, which fits the BIGINT column.) *)
Definition upsert_user (t : gmap Z row) (tg_id : Z)
    (name gender : option string) (age : option Z)
    (vk_id username : option string) : option (gmap Z row) :=
  let r :=
    match t !! tg_id with
    | None => Row name gender age vk_id username
    | Some old =>
        Row (coalesce name (r_name old)) (coalesce gender (r_gender old))
            (coalesce age (r_age old)) (coalesce vk_id (r_vk_id old))
            (coalesce username (r_username old))
    end in
  if upsert_accepted name gender age vk_id username
  then Some (<[tg_id := r]> t) else None.

(** [set_vk_id]: an UPDATE, which leaves the table alone without the row.
    Its one caller passes a handle that [vk_format_ok] has accepted, made of
    letters, digits, dots and underscores. *)
Definition set_vk_id (t : gmap Z row) (tg_id : Z) (vk_id : string) : gmap Z row :=
  alter (fun r => Row (r_name r) (r_gender r) (r_age r) (Some vk_id) (r_username r)) tg_id t.

(** [get_user] *)
Definition get_user (t : gmap Z row) (tg_id : Z) : option row := t !! tg_id.

(** ** Configuration, outside world and state *)

(** The settings read from the environment when the module is loaded.  An
    administrator id of 0 is an unset one. *)
Record config : Type := Config {
  VK_ENABLED : bool;
  ADMIN_USER_ID : Z;
  ADMIN_USER_ID_2 : Z;
  ADMIN_USER_ID_3 : Z }.

(** What [get_chat_member] answered: a member status, or an exception. *)
Inductive tg_answer : Type :=
| TgStatus (status : string)
| TgFailed.

(** The outcomes of the calls that leave the process while one update is
    handled.  Calls of one kind share their outcome within one update. *)
Record oracle : Type := Oracle {
  get_user_raises : bool;          (* SELECT ... WHERE tg_id raises *)
  upsert_raises : bool;            (* the connection fails in upsert_user / set_vk_id *)
  tg_channel_1 : tg_answer;        (* get_chat_member(CHANNEL_USERNAME, ...) *)
  tg_channel_2 : tg_answer;        (* get_chat_member(CHANNEL_USERNAME_2, ...) *)
  vk_network : option bool;        (* what the VK API calls of is_user_subscribed_vk yield *)
  by_username : option (option Z); (* get_user_by_username: raised / no row / tg_id *)
  by_chat : option Z;              (* get_chat("@name"): raised / chat id *)
  reply_raises : bool }.           (* a reply sent inside the lookup's try block raises *)

(** [context.bot_data] *)
Record bot_data : Type := BotData {
  poster : option loc;
  all_posters : list loc;
  objects : gmap loc pdict;
  known_users : gset Z;
  admins : gset Z;
  user_vk_cache : gmap Z string }.

(** What one handler sees: the dictionary of the user who sent the update,
    the shared dictionary and the connection pool ([None] without one). *)
Record world : Type := World {
  w_user : gmap string value;
  w_bot : bot_data;
  w_db : option (gmap Z row) }.

Definition set_user (u : gmap string value) (w : world) : world :=
  World u (w_bot w) (w_db w).

Definition set_bot (b : bot_data) (w : world) : world :=
  World (w_user w) b (w_db w).

Definition set_db (d : option (gmap Z row)) (w : world) : world :=
  World (w_user w) (w_bot w) d.

Definition set_poster (p : option loc) (b : bot_data) : bot_data :=
  BotData p (all_posters b) (objects b) (known_users b) (admins b) (user_vk_cache b).

Definition set_all_posters (l : list loc) (b : bot_data) : bot_data :=
  BotData (poster b) l (objects b) (known_users b) (admins b) (user_vk_cache b).

Definition set_objects (h : gmap loc pdict) (b : bot_data) : bot_data :=
  BotData (poster b) (all_posters b) h (known_users b) (admins b) (user_vk_cache b).

Definition set_known_users (s : gset Z) (b : bot_data) : bot_data :=
  BotData (poster b) (all_posters b) (objects b) s (admins b) (user_vk_cache b).

Definition set_admins (s : gset Z) (b : bot_data) : bot_data :=
  BotData (poster b) (all_posters b) (objects b) (known_users b) s (user_vk_cache b).

Definition set_user_vk_cache (c : gmap Z string) (b : bot_data) : bot_data :=
  BotData (poster b) (all_posters b) (objects b) (known_users b) (admins b) c.

(** The dictionary at an address; an address is never dangling in a state
    the bot builds, and reads as the empty dictionary if it were. *)
Definition deref (b : bot_data) (l : loc) : pdict := default ∅ (objects b !! l).

(** [get_known_users(context).add(uid)] *)
Definition add_known_user (uid : Z) (b : bot_data) : bot_data :=
  set_known_users ({[uid]} ∪ known_users b) b.

(** [get_admins]: the stored set, to which the configured administrators
    are added on every call. *)
Definition env_admin (a : Z) : gset Z := if a =? 0 then ∅ else {[a]}.

Definition get_admins (cfg : config) (b : bot_data) : bot_data :=
  set_admins (env_admin (ADMIN_USER_ID_3 cfg) ∪ (env_admin (ADMIN_USER_ID_2 cfg)
              ∪ (env_admin (ADMIN_USER_ID cfg) ∪ admins b))) b.


(** ** Replies *)

(** The messages the handlers send, one constructor per message text.  A
    reply in a handler's list is a send that was attempted. *)
Inductive reply : Type :=
(* start, menu *)
| AlreadyRegistered
| ContinueAskName
| ContinueAskGender
| ContinueAskAge
| WelcomeAskName
| NeedRegistration
(* show_main_menu *)
| NoPostersYet
| MainMenuBanner
| MenuPoster (index : Z) (p : loc)
| PosterFailed
(* registration *)
| NameAcceptedAskGender
| GenderAcceptedAskAge
| AgeOutOfRange
| AgeNotANumber
| RegistrationDone
(* subscriptions *)
| SubscriptionStatus (all_passed : bool)
| LookupReport (all_ok continuous : bool)
| LookupNotFound (continuous : bool)
| LookupNoId
| LookupError (continuous : bool)
(* VK linking *)
| VkLinkForm (relink : bool)
| VkEmptyInput
| VkBadFormat
| VkLinked (relink : bool)
(* posters *)
| PosterDeleted (remaining : Z)
| PosterBadIndex
| PosterDeleteError
| DeleteCancelled
| PastEvent
(* administration *)
| AdminOnly
| NotEnoughRights
| AdminPanel
| DraftAskPhoto
| DraftAskCaption
| DraftAskLink
| DraftPreview
| DraftNoPhoto
| DraftCaptionTooLong
| DraftBadLink
| PosterPublished (p : loc) (total : Z)
| DraftCancelled
| BroadcastDone
| AskTicketLink
| TicketLinkSaved
| CurrentPosterDeleted (remaining : Z)
| NoPosterToDelete
| AskBroadcastText
| BroadcastText (uid : Z) (text : string)
| BroadcastTextDone
| UsersCount
| PosterList
| LookupModeOn
| LookupModeOff
| PosterTo (uid : Z) (p : loc)
| NoPostersTo (uid : Z)
| BroadcastReport
| Reengage (uid : Z)
| ErrorAlert.

#[global] Instance reply_eq_dec : EqDecision reply.
Proof. solve_decision. Defined.

(** How a handler ended: it returned, or an exception left it. *)
Inductive status : Type :=
| Returned
| Raised.

(** ** Loading a user from the table *)

(** [load_user_data_from_db].  Without a pool, or when the query raises,
    the dictionary is left as it is. *)
Definition load_user_data_from_db (o : oracle) (uid : Z)
    (d : option (gmap Z row)) (u : gmap string value) : gmap string value :=
  match d with
  | None => u
  | Some t =>
      if get_user_raises o then u
      else
        match get_user t uid with
        | Some r =>
            let u1 := <["age" := of_int (r_age r)]>
                      (<["gender" := of_text (r_gender r)]>
                      (<["name" := of_text (r_name r)]> u)) in
            let u2 := if truthy (of_text (r_vk_id r))
                      then <["vk_id" := of_text (r_vk_id r)]> u1 else u1 in
            let has_required_data :=
              truthy (of_text (r_name r)) && truthy (of_text (r_gender r))
              && negb (is_None (of_int (r_age r))) in
            <["registered" := VBool has_required_data]> u2
        | None =>
            delete "vk_id" (delete "age" (delete "gender" (delete "name"
              (<["registered" := VBool false]> u))))
        end
  end.

(** The test [is_registered] of [start] and [menu]. *)
Definition is_registered (u : gmap string value) : bool :=
  eq_True (get u "registered") && truthy (get u "name")
  && truthy (get u "gender") && negb (is_None (get u "age")).

(** [has_partial_data] of [start] *)
Definition has_partial_data (u : gmap string value) : bool :=
  truthy (get u "name") || truthy (get u "gender") || negb (is_None (get u "age")).

(** A database call guarded by [if pool:] and [try: ... except: log]. *)
Definition try_db (o : oracle) (d : option (gmap Z row))
    (f : gmap Z row -> option (gmap Z row)) : option (gmap Z row) :=
  match d with
  | None => None
  | Some t =>
      if upsert_raises o then Some t
      else match f t with Some t' => Some t' | None => Some t end
  end.

(** ** /start *)

Definition start (o : oracle) (uid : Z) (username : option string)
    (w : world) : world * list reply :=
  let b := add_known_user uid (w_bot w) in
  let d := try_db o (w_db w)
             (fun t => upsert_user t uid None None None None username) in
  let u := load_user_data_from_db o uid d (w_user w) in
  if is_registered u then
    (World (delete "awaiting_username_check" (delete "awaiting_vk"
              (delete "registration_step" u))) b d,
     [AlreadyRegistered])
  else if has_partial_data u then
    if negb (truthy (get u "name")) then
      (World (<["registration_step" := VStr "name"]> u) b d, [ContinueAskName])
    else if negb (truthy (get u "gender")) then
      (World (<["registration_step" := VStr "gender"]> u) b d, [ContinueAskGender])
    else if is_None (get u "age") then
      (World (<["registration_step" := VStr "age"]> u) b d, [ContinueAskAge])
    else (World u b d, [])
  else
    (World (<["registration_step" := VStr "name"]> u) b d, [WelcomeAskName]).

(** ** The main menu *)

(** [x in l] on posters: identity or equality of the dictionaries. *)
Definition poster_in (b : bot_data) (p : loc) (l : list loc) : bool :=
  existsb (fun q => bool_decide (deref b q = deref b p)) l.

(** A value used as a number in a comparison or as an index: [bool] is a
    subclass of [int]; [None] stands for [TypeError]. *)
Definition as_int (v : value) : option Z :=
  match v with
  | VInt n => Some n
  | VBool b => Some (if b then 1 else 0)
  | _ => None
  end.

(** [l[i]]: negative indices count from the end, [None] is [IndexError]. *)
Definition py_index {A : Type} (l : list A) (i : Z) : option A :=
  let n := Z.of_nat (length l) in
  if (0 <=? i) && (i <? n) then l !! Z.to_nat i
  else if (- n <=? i) && (i <? 0) then l !! Z.to_nat (n + i)
  else None.

(** The list of posters once [show_main_menu] has added the current poster
    to it when it is missing there. *)
Definition menu_posters (b : bot_data) : list loc :=
  match poster b with
  | Some p =>
      if negb (bool_decide (deref b p = ∅)) && negb (poster_in b p (all_posters b))
      then all_posters b ++ [p] else all_posters b
  | None => all_posters b
  end.

(** The lines of [show_main_menu] that settle the index of the poster to
    show among [n] posters: the dictionary they leave and the index, or
    [None] when a comparison raises [TypeError]. *)
Definition menu_index (u : gmap string value) (n : Z)
    : gmap string value * option Z :=
  let u1 := match u !! "current_poster_index" with
            | None => <["current_poster_index" := VInt (n - 1)]> u
            | Some _ => u
            end in
  match as_int (default (VInt 0) (u1 !! "current_poster_index")) with
  | None => (u1, None)
  | Some i =>
      if i >=? n then (<["current_poster_index" := VInt (n - 1)]> u1, Some (n - 1))
      else if i <? 0 then (<["current_poster_index" := VInt 0]> u1, Some 0)
      else (u1, Some i)
  end.

(** The [try] block of [show_main_menu] that sends the poster. *)
Definition send_menu_poster (b : bot_data) (i : Z) (p : loc) (n : Z) : list reply :=
  let caption := match deref b p !! "caption" with Some c => c | None => Some "" end in
  if (n >? 1) && negb (bool_decide (is_Some caption)) then [PosterFailed]
  else match deref b p !! "file_id" with
       | Some _ => [MainMenuBanner; MenuPoster i p]
       | None => [MainMenuBanner; PosterFailed]
       end.

Definition show_main_menu (cfg : config) (o : oracle) (uid : Z)
    (w : world) : world * list reply * status :=
  let u := load_user_data_from_db o uid (w_db w) (w_user w) in
  let posters := menu_posters (w_bot w) in
  let b := set_all_posters posters (w_bot w) in
  match posters with
  | [] => (World u (get_admins cfg b) (w_db w), [NoPostersYet], Returned)
  | _ :: _ =>
      let n := Z.of_nat (length posters) in
      match menu_index u n with
      | (u1, None) => (World u1 b (w_db w), [], Raised)
      | (u1, Some i) =>
          match py_index posters i with
          | None => (World u1 b (w_db w), [], Raised)
          | Some p =>
              (World u1 (get_admins cfg b) (w_db w), send_menu_poster b i p n, Returned)
          end
      end
  end.

(** ** /menu *)

Definition menu (cfg : config) (o : oracle) (uid : Z) (w : world)
    : world * list reply * status :=
  let b := add_known_user uid (w_bot w) in
  let u := load_user_data_from_db o uid (w_db w) (w_user w) in
  if negb (is_registered u) then (World u b (w_db w), [NeedRegistration], Returned)
  else show_main_menu cfg o uid (World u b (w_db w)).

(** ** Membership checks *)

(** [member.status in ["member", "administrator", "creator"]] *)
Definition status_ok (s : string) : bool :=
  String.eqb s "member" || String.eqb s "administrator" || String.eqb s "creator".

(** One half of [is_user_subscribed]: the flag starts as [False] and stays
    so when the call raises. *)
Definition channel_ok (a : tg_answer) : bool :=
  match a with
  | TgStatus s => status_ok s
  | TgFailed => false
  end.

Definition is_user_subscribed (o : oracle) : bool * bool :=
  (channel_ok (tg_channel_1 o), channel_ok (tg_channel_2 o)).

(** [is_user_subscribed_vk]: [None] when VK is switched off, and otherwise
    what the calls to the VK API yield ([None] when one of them fails). *)
Definition is_user_subscribed_vk (cfg : config) (o : oracle) : option bool :=
  if negb (VK_ENABLED cfg) then None else vk_network o.

(** The truth value of an [Optional[bool]] *)
Definition opt_truthy (s : option bool) : bool :=
  match s with Some b => b | None => false end.

(** The verdict of the button [check_all]:
    [all_tg_ok and (not VK_ENABLED or not vk_id or vk_status)]. *)
Definition check_all_passed (cfg : config) (tg1_ok tg2_ok : bool)
    (vk_id : value) (vk_status : option bool) : bool :=
  (tg1_ok && tg2_ok)
  && (negb (VK_ENABLED cfg) || negb (truthy vk_id) || opt_truthy vk_status).

(** [vk_status] as [check_all] computes it *)
Definition check_all_vk_status (cfg : config) (o : oracle) (vk_id : value) : option bool :=
  if VK_ENABLED cfg && truthy vk_id then is_user_subscribed_vk cfg o else None.

Definition check_all (cfg : config) (o : oracle) (u : gmap string value) : list reply :=
  let '(tg1_ok, tg2_ok) := is_user_subscribed o in
  let vk_id := get u "vk_id" in
  [SubscriptionStatus
     (check_all_passed cfg tg1_ok tg2_ok vk_id (check_all_vk_status cfg o vk_id))].

(** The verdict of the administrator's lookup:
    [tg1_ok and tg2_ok and (not VK_ENABLED or vk_status)]. *)
Definition lookup_all_ok (cfg : config) (tg1_ok tg2_ok : bool)
    (vk_status : option bool) : bool :=
  tg1_ok && tg2_ok && (negb (VK_ENABLED cfg) || opt_truthy vk_status).

(** ** Registration steps *)

(** The name that stands in for a missing one.  The literal is carried as
    its bytes; only the fact that it is not empty is used. *)
Definition NAME_PLACEHOLDER : string := "Не указано".

(** [SELECT name FROM users WHERE tg_id = $1] of the age step, kept when
    the row exists and its name is not empty. *)
Definition fetch_name (o : oracle) (uid : Z) (d : option (gmap Z row)) : option string :=
  match d with
  | None => None
  | Some t =>
      if get_user_raises o then None
      else match t !! uid with
           | Some r => if ptruthy (r_name r) then r_name r else None
           | None => None
           end
  end.

Definition handle_registration_step (o : oracle) (uid : Z) (username : option string)
    (text : string) (reg_step : value) (w : world) : world * list reply :=
  let u := w_user w in
  if bool_decide (reg_step = VStr "name") then
    let name := Py.strip text in
    let u1 := <["registration_step" := VStr "gender"]> (<["name" := VStr name]> u) in
    let d := try_db o (w_db w)
               (fun t => upsert_user t uid (Some name) None None None username) in
    (World u1 (w_bot w) d, [NameAcceptedAskGender])
  else if bool_decide (reg_step = VStr "age") then
    match Py.int (Py.strip text) with
    | None => (w, [AgeNotANumber])
    | Some age =>
        if (age <? 14) || (age >? 100) then (w, [AgeOutOfRange])
        else
          let u1 := delete "registration_step"
                      (<["registered" := VBool true]> (<["age" := VInt age]> u)) in
          let u2 := if truthy (get u1 "name") then u1
                    else match fetch_name o uid (w_db w) with
                         | Some s => <["name" := VStr s]> u1
                         | None => u1
                         end in
          let name := if truthy (get u2 "name") then get u2 "name"
                      else VStr NAME_PLACEHOLDER in
          let d := try_db o (w_db w)
                     (fun t =>
                        match as_text name, as_text (get u2 "gender"),
                              as_text (get u2 "vk_id") with
                        | Some n, Some g, Some v =>
                            upsert_user t uid n g (Some age) v username
                        | _, _, _ => None
                        end) in
          (World u2 (w_bot w) d, [RegistrationDone])
    end
  else (w, []).

(** ** Text messages *)

(** The administrator's lookup by username or id, the branch
    [awaiting_username_check] of [handle_text].  [stop] is what both the
    single-shot mode and the [except] branch do to the flag; [guarded] is
    the last statement of a path of the [try] block, a reply that may
    raise and so lead into the [except] branch. *)
Definition handle_lookup (cfg : config) (o : oracle) (text : string)
    (w : world) : world * list reply :=
  let u := w_user w in
  let continuous := truthy (get u "continuous_check_mode") in
  let stop (u' : gmap string value) :=
    if continuous then u' else <["awaiting_username_check" := VBool false]> u' in
  let guarded (u' : gmap string value) (r : reply) :=
    if reply_raises o then (set_user (stop u') w, [r; LookupError continuous])
    else (set_user u' w, [r]) in
  let input_text := Py.strip text in
  let report (target : Z) :=
    if target =? 0 then guarded u LookupNoId
    else
      let '(tg1_ok, tg2_ok) := is_user_subscribed o in
      let vk_id :=
        match w_db w with
        | Some t =>
            if get_user_raises o then None
            else match get_user t target with
                 | Some r => r_vk_id r
                 | None => None
                 end
        | None => None
        end in
      let vk_status :=
        if ptruthy vk_id && VK_ENABLED cfg then is_user_subscribed_vk cfg o
        else None in
      guarded (stop u) (LookupReport (lookup_all_ok cfg tg1_ok tg2_ok vk_status) continuous) in
  if Py.isdigit input_text then
    match Py.int input_text with
    | Some target => report target
    | None => (set_user (stop u) w, [LookupError continuous])
    end
  else
    let target :=
      match w_db w with
      | Some _ =>
          match by_username o with
          | Some (Some tg_id) => Some tg_id
          | Some None => by_chat o
          | None => None
          end
      | None => None
      end in
    match target with
    | Some tg_id =>
        if tg_id =? 0 then guarded (stop u) (LookupNotFound continuous)
        else report tg_id
    | None => guarded (stop u) (LookupNotFound continuous)
    end.

(** [poster = bot_data.get("poster") or {}; poster["ticket_url"] = url;
    bot_data["poster"] = poster]: the current poster is changed in place,
    and a new dictionary is made when there is none or an empty one. *)
Definition set_ticket_url (url : string) (b : bot_data) : bot_data :=
  let fresh_poster :=
    let l := fresh (dom (objects b)) in
    set_poster (Some l) (set_objects (<[l := {["ticket_url" := Some url]}]> (objects b)) b) in
  match poster b with
  | Some p =>
      if bool_decide (deref b p = ∅) then fresh_poster
      else set_objects (<[p := <["ticket_url" := Some url]> (deref b p)]> (objects b)) b
  | None => fresh_poster
  end.

(** The format test of the VK branch:
    digits, or [id] and digits, or a nickname of three characters or more. *)
Definition vk_format_ok (vk_input : string) : bool :=
  Py.isdigit vk_input
  || (Py.startswith "id" (Py.lower vk_input) && Py.isdigit (Py.drop 2 vk_input))
  || ((3 <=? Py.len vk_input)
      && Py.isalnum (Py.remove_char "." (Py.remove_char "_" vk_input))).

(** The branch [awaiting_vk] of [handle_text]. *)
Definition handle_vk_input (cfg : config) (o : oracle) (uid : Z) (text : string)
    (w : world) : world * list reply :=
  let u := <["awaiting_vk" := VBool false]> (w_user w) in
  let vk_input := Py.strip text in
  if negb (Py.nonempty vk_input) then (set_user u w, [VkEmptyInput])
  else if negb (vk_format_ok vk_input) then (set_user u w, [VkBadFormat])
  else
    let was_relink := truthy (get u "vk_id") in
    let u1 := <["vk_id" := VStr vk_input]> u in
    match w_db w with
    | Some t =>
        if upsert_raises o then (World u1 (w_bot w) (Some t), [VkLinked was_relink])
        else
          (World u1
             (set_user_vk_cache (<[uid := vk_input]> (user_vk_cache (w_bot w))) (w_bot w))
             (Some (set_vk_id t uid vk_input)),
           [VkLinked was_relink])
    | None => (World u1 (w_bot w) None, [VkLinked was_relink])
    end.

(** The steps [caption] and [link] of the poster wizard in [handle_text];
    [None] when the text is not for the wizard. *)
Definition handle_draft_text (d : draft) (text : string)
    (w : world) : option (world * list reply) :=
  if String.eqb (d_step d) "caption" then
    Some (set_user (<["poster_draft" :=
                      VDraft (Draft "link" (d_file_id d) (Some text) (d_ticket_url d))]>
                    (w_user w)) w,
          [DraftAskLink])
  else if String.eqb (d_step d) "link" then
    Some (set_user (<["poster_draft" :=
                      VDraft (Draft "preview" (d_file_id d) (d_caption d)
                                (Some (Py.strip text)))]>
                    (w_user w)) w,
          [DraftPreview])
  else None.

Definition handle_text (cfg : config) (o : oracle) (uid : Z)
    (username : option string) (text : string) (w : world)
    : world * list reply * status :=
  let u := w_user w in
  if negb (Py.nonempty text) then (w, [], Returned)
  else if truthy (get u "registration_step") then
    (handle_registration_step o uid username text (get u "registration_step") w, Returned)
  else if truthy (get u "awaiting_username_check") then
    (handle_lookup cfg o text w, Returned)
  else if truthy (get u "awaiting_ticket") then
    (World (<["awaiting_ticket" := VBool false]> u)
           (set_ticket_url (Py.strip text) (w_bot w)) (w_db w),
     [TicketLinkSaved], Returned)
  else if truthy (get u "awaiting_broadcast_text") then
    (set_user (<["awaiting_broadcast_text" := VBool false]> u) w,
     (map (fun k => BroadcastText k text) (elements (known_users (w_bot w)))
      ++ [BroadcastTextDone])%list,
     Returned)
  else
    let vk_branch :=
      if VK_ENABLED cfg && truthy (get u "awaiting_vk")
      then (handle_vk_input cfg o uid text w, Returned)
      else (w, [], Returned) in
    match get u "poster_draft" with
    | VDraft d =>
        match handle_draft_text d text w with
        | Some r => (r, Returned)
        | None => vk_branch
        end
    | v => if truthy v then (w, [], Raised) else vk_branch
    end.

(** ** Photos *)

(** [handle_photo]: [file_id] is that of the largest size of the photo. *)
Definition handle_photo (file_id : string) (w : world) : world * list reply :=
  match get (w_user w) "poster_draft" with
  | VDraft d =>
      if String.eqb (d_step d) "photo" then
        (set_user (<["poster_draft" :=
                     VDraft (Draft "caption" (Some file_id) (d_caption d) (d_ticket_url d))]>
                   (w_user w)) w,
         [DraftAskCaption])
      else (w, [])
  | _ => (w, [])
  end.

(** ** Broadcasts and the administrator's panel *)

(** [l[-1]] *)
Definition last_poster (l : list loc) : option loc := last l.

(** [do_weekly_broadcast]: the newest poster goes to every known user, and
    a report goes to the first configured administrator. *)
Definition do_weekly_broadcast (cfg : config) (b : bot_data) : list reply :=
  if bool_decide (known_users b = ∅) then []
  else match last_poster (all_posters b) with
       | None => []
       | Some p =>
           (map (fun k => PosterTo k p) (elements (known_users b))
            ++ (if ADMIN_USER_ID cfg =? 0 then [] else [BroadcastReport]))%list
       end.

(** [admin_panel]: whoever opens the panel while no administrator is known
    becomes one. *)
Definition admin_panel (cfg : config) (uid : Z) (b : bot_data) : bot_data * list reply :=
  let b1 := get_admins cfg b in
  let b2 := if bool_decide (admins b1 = ∅) then set_admins ({[uid]} ∪ admins b1) b1 else b1 in
  if bool_decide (uid ∈ admins b2) then (b2, [AdminPanel]) else (b2, [AdminOnly]).

(** ** Buttons *)

(** [l.pop(i)] for an index already known to be in range: the list
    without its [i]-th element. *)
Definition pop_at {A : Type} (i : nat) (l : list A) : list A :=
  (take i l ++ drop (S i) l)%list.

(** [l.remove(x)]: the list without the first element equal to [x]. *)
Fixpoint remove_first {A : Type} (f : A -> bool) (l : list A) : list A :=
  match l with
  | [] => []
  | x :: r => if f x then r else x :: remove_first f r
  end.

(** [bot_data["poster"]] after a poster has been taken out of the list:
    the last one left, or no key at all. *)
Definition repoint (b : bot_data) : bot_data :=
  set_poster (last_poster (all_posters b)) b.

(** The button [delete_poster:<index>]. *)
Definition delete_poster_button (arg : string) (b : bot_data) : bot_data * list reply :=
  match Py.int arg with
  | None => (b, [PosterDeleteError])
  | Some poster_index =>
      if (0 <=? poster_index) && (poster_index <? Z.of_nat (length (all_posters b))) then
        match all_posters b !! Z.to_nat poster_index with
        | None => (b, [PosterDeleteError])
        | Some deleted =>
            let b1 := set_all_posters (pop_at (Z.to_nat poster_index) (all_posters b)) b in
            let was_current :=
              match poster b1 with
              | Some p => bool_decide (deref b1 p = deref b1 deleted)
              | None => false
              end in
            let b2 := if was_current then repoint b1 else b1 in
            match deref b deleted !! "caption" with
            | Some None => (b2, [ErrorAlert])
            | _ => (b2, [PosterDeleted (Z.of_nat (length (all_posters b2)))])
            end
        end
      else (b, [PosterBadIndex])
  end.

(** The button [admin:delete_poster], which deletes the current poster. *)
Definition delete_current_poster (b : bot_data) : bot_data * list reply :=
  let b1 := set_poster None b in
  match poster b with
  | Some p =>
      if bool_decide (deref b p = ∅) then (b1, [NoPosterToDelete])
      else
        let b2 :=
          if poster_in b p (all_posters b)
          then set_all_posters
                 (remove_first (fun q => bool_decide (deref b q = deref b p)) (all_posters b)) b1
          else b1 in
        match all_posters b2 with
        | [] => (b2, [CurrentPosterDeleted 0])
        | _ :: _ => (repoint b2, [CurrentPosterDeleted (Z.of_nat (length (all_posters b2)))])
        end
  | None => (b1, [NoPosterToDelete])
  end.

(** The button [admin:confirm_poster]. *)
Definition confirm_poster (w : world) : world * list reply :=
  let publish (d : draft) (file_id : string) :=
    let caption := default "" (d_caption d) in
    let caption_ok := is_valid_caption caption in
    let link_ok := negb (ptruthy (d_ticket_url d))
                   || is_valid_url (default "" (d_ticket_url d)) in
    if negb caption_ok then (w, [DraftCaptionTooLong])
    else if negb link_ok then (w, [DraftBadLink])
    else
      let b := w_bot w in
      let l := fresh (dom (objects b)) in
      let p : pdict := <["ticket_url" := d_ticket_url d]>
                       (<["caption" := Some caption]> {["file_id" := Some file_id]}) in
      let b1 := set_all_posters (all_posters b ++ [l])
                  (set_poster (Some l) (set_objects (<[l := p]> (objects b)) b)) in
      (World (delete "poster_draft" (w_user w)) b1 (w_db w),
       [PosterPublished l (Z.of_nat (length (all_posters b1)))]) in
  match get (w_user w) "poster_draft" with
  | VDraft d =>
      match d_file_id d with
      | Some file_id =>
          if Py.nonempty file_id then publish d file_id else (w, [DraftNoPhoto])
      | None => (w, [DraftNoPhoto])
      end
  | v => if truthy v then (w, [ErrorAlert]) else (w, [DraftNoPhoto])
  end.

(** [user_data.get("current_poster_index", len - 1 if all_posters else 0)] *)
Definition stored_index (u : gmap string value) (b : bot_data) : value :=
  match u !! "current_poster_index" with
  | Some v => v
  | None =>
      match all_posters b with
      | [] => VInt 0
      | _ :: _ => VInt (Z.of_nat (length (all_posters b)) - 1)
      end
  end.

(** The buttons that reset the index to the newest poster. *)
Definition point_to_newest (u : gmap string value) (b : bot_data) : gmap string value :=
  match all_posters b with
  | [] => u
  | _ :: _ => <["current_poster_index" := VInt (Z.of_nat (length (all_posters b)) - 1)]> u
  end.

(** [show_main_menu] inside the [try] block of [handle_buttons]: an
    exception ends in the alert of the [except] branch. *)
Definition show_menu_caught (cfg : config) (o : oracle) (uid : Z)
    (w : world) : world * list reply :=
  match show_main_menu cfg o uid w with
  | (w', r, Returned) => (w', r)
  | (w', r, Raised) => (w', (r ++ [ErrorAlert])%list)
  end.

(** The buttons whose data starts with [admin:]. *)
Definition handle_admin_button (cfg : config) (o : oracle) (uid : Z)
    (sub : string) (w : world) : world * list reply :=
  let b := get_admins cfg (w_bot w) in
  let w := set_bot b w in
  let u := w_user w in
  if negb (bool_decide (uid ∈ admins b)) then (w, [NotEnoughRights])
  else if String.eqb sub "create_poster" then
    (set_user (<["poster_draft" := VDraft (Draft "photo" None None None)]> u) w,
     [DraftAskPhoto])
  else if String.eqb sub "broadcast_now" then
    (w, (do_weekly_broadcast cfg b ++ [BroadcastDone])%list)
  else if String.eqb sub "set_ticket" then
    (set_user (<["awaiting_ticket" := VBool true]> u) w, [AskTicketLink])
  else if String.eqb sub "delete_poster" then
    let '(b', r) := delete_current_poster b in (set_bot b' w, r)
  else if String.eqb sub "broadcast_text" then
    (set_user (<["awaiting_broadcast_text" := VBool true]> u) w, [AskBroadcastText])
  else if String.eqb sub "stats" then (w, [UsersCount])
  else if String.eqb sub "back_to_panel" then
    let '(b', r) := admin_panel cfg uid b in
    (World (delete "poster_draft" u) b' (w_db w), r)
  else if String.eqb sub "confirm_poster" then confirm_poster w
  else if String.eqb sub "cancel_poster" then
    (set_user (delete "poster_draft" u) w, [DraftCancelled])
  else if String.eqb sub "users_count" then (w, [UsersCount])
  else if String.eqb sub "list_posters" then
    if existsb (fun l => bool_decide (deref b l !! "caption" = Some None)) (all_posters b)
    then (w, [ErrorAlert]) else (w, [PosterList])
  else if String.eqb sub "check_by_username" then
    (set_user (<["continuous_check_mode" := VBool true]>
               (<["awaiting_username_check" := VBool true]> u)) w,
     [LookupModeOn])
  else if String.eqb sub "stop_check" then
    let '(b', r) := admin_panel cfg uid b in
    (World (<["continuous_check_mode" := VBool false]>
            (<["awaiting_username_check" := VBool false]> u)) b' (w_db w),
     LookupModeOff :: r)
  else if String.eqb sub "refresh" then
    let '(b', r) := admin_panel cfg uid b in (set_bot b' w, r)
  else (w, []).

Definition handle_buttons (cfg : config) (o : oracle) (uid : Z)
    (username : option string) (data : string) (w : world) : world * list reply :=
  let u := load_user_data_from_db o uid (w_db w) (w_user w) in
  let w := set_user u w in
  let b := w_bot w in
  if String.eqb data "check_all" then (w, check_all cfg o u)
  else if String.eqb data "link_vk" then
    (set_user (<["awaiting_vk" := VBool true]> u) w, [VkLinkForm (truthy (get u "vk_id"))])
  else if String.eqb data "show_current_poster" || String.eqb data "poster" then
    show_menu_caught cfg o uid (set_user (point_to_newest u b) w)
  else if String.eqb data "open_admin" then
    let '(b', r) := admin_panel cfg uid b in (set_bot b' w, r)
  else if String.eqb data "back_to_menu" then
    let u1 := load_user_data_from_db o uid (w_db w) u in
    show_menu_caught cfg o uid (set_user (point_to_newest u1 b) w)
  else if String.eqb data "poster_prev" then
    match as_int (stored_index u b) with
    | None => (w, [ErrorAlert])
    | Some i =>
        let u1 := if i >? 0 then <["current_poster_index" := VInt (i - 1)]> u else u in
        show_menu_caught cfg o uid (set_user u1 w)
    end
  else if Py.startswith "delete_poster:" data then
    let '(b', r) := delete_poster_button (default "" (Py.after_first ":" data)) b in
    (set_bot b' w, r)
  else if String.eqb data "cancel_delete" then (w, [DeleteCancelled])
  else if String.eqb data "poster_next" then
    match as_int (stored_index u b) with
    | None => (w, [ErrorAlert])
    | Some i =>
        let u1 := if i <? Z.of_nat (length (all_posters b)) - 1
                  then <["current_poster_index" := VInt (i + 1)]> u else u in
        show_menu_caught cfg o uid (set_user u1 w)
    end
  else if Py.startswith "gender_" data then
    let gender := default "" (Py.after_first "_" data) in
    let u1 := <["registration_step" := VStr "age"]> (<["gender" := VStr gender]> u) in
    let d := try_db o (w_db w)
               (fun t => upsert_user t uid None (Some gender) None None username) in
    (World u1 b d, [GenderAcceptedAskAge])
  else if String.eqb data "past_event" then (w, [PastEvent])
  else if Py.startswith "admin:" data then
    handle_admin_button cfg o uid (default "" (Py.after_first ":" data)) w
  else (w, []).

(** ** The weekly re-engagement pass *)

(** [int(v)] on a stored value; [None] stands for the exception. *)
Definition int_of_value (v : value) : option Z :=
  match v with
  | VInt n => Some n
  | VBool b => Some (if b then 1 else 0)
  | VStr s => Py.int s
  | _ => None
  end.

Fixpoint substring_of (k s : string) : bool :=
  String.prefix k s
  || match s with
     | EmptyString => false
     | String _ r => substring_of k r
     end.

(** [k in v]: membership in a set, a substring of a [str], a key of the
    draft dictionary; [None] stands for [TypeError]. *)
Definition contains (k : string) (v : value) : option bool :=
  match v with
  | VSet s => Some (bool_decide (k ∈ s))
  | VStr s => Some (substring_of k s)
  | VDraft _ =>
      Some (String.eqb k "step" || String.eqb k "file_id"
            || String.eqb k "caption" || String.eqb k "ticket_url")
  | _ => None
  end.

(** One turn of the loop of [finalize_previous_week_and_reengage], on the
    dictionary of the user [uid]: the dictionary it leaves and the message
    it sends, or [None] when [int()] or [in] raises. *)
Definition reengage_user (prev_key : string) (uid : Z)
    (u : gmap string value) : option (gmap string value * list reply) :=
  let attended_weeks := default (VSet ∅) (u !! "attended_weeks") in
  match int_of_value (default (VInt 0) (u !! "missed_in_row")) with
  | None => None
  | Some missed_in_row =>
      match contains prev_key attended_weeks with
      | None => None
      | Some true => Some (<["missed_in_row" := VInt 0]> u, [])
      | Some false =>
          let missed_in_row := missed_in_row + 1 in
          Some (<["missed_in_row" := VInt missed_in_row]> u,
                if missed_in_row >? 2 then [Reengage uid] else [])
      end
  end.

(** The dictionaries of all users, by user id. *)
Abbreviation user_store := (gmap Z (gmap string value)).

(** A mapping from user ids to dictionaries: a [dict], or the read-only
    view of one ([types.MappingProxyType]). *)
Inductive mapping : Type :=
| Dict (d : user_store)
| Proxy (d : user_store).

Definition contents (m : mapping) : user_store :=
  match m with Dict d => d | Proxy d => d end.

(** [m.setdefault(k, dflt)]: the dictionary at [k], stored first when there
    was none.  A view has no such method: [None] stands for its
    [AttributeError]. *)
Definition setdefault (m : mapping) (k : Z) (dflt : gmap string value)
    : option (gmap string value * mapping) :=
  match m with
  | Dict d =>
      match d !! k with
      | Some u => Some (u, m)
      | None => Some (dflt, Dict (<[k := dflt]> d))
      end
  | Proxy _ => None
  end.

(** [m[k] = v]; a view takes no assignment: [None] stands for its
    [TypeError]. *)
Definition setitem (m : mapping) (k : Z) (v : gmap string value) : option mapping :=
  match m with
  | Dict d => Some (Dict (<[k := v]> d))
  | Proxy _ => None
  end.

(** [Application.user_data], the attribute the weekly pass reads: the
    application hands out a view of its dictionaries, not the [dict]
    itself. *)
Definition application_user_data (store : user_store) : mapping := Proxy store.

(** The loop over the known users, on the mapping [m].  The dictionary
    [setdefault] returns is the stored one, so what the turn writes into it
    is in the mapping before the closing assignment. *)
Fixpoint reengage_all (prev_key : string) (uids : list Z) (m : mapping)
    : mapping * list reply * status :=
  match uids with
  | [] => (m, [], Returned)
  | uid :: rest =>
      match setdefault m uid ∅ with
      | None => (m, [], Raised)
      | Some (u, m1) =>
          match reengage_user prev_key uid u with
          | None => (m1, [], Raised)
          | Some (u', sent) =>
              match setitem m1 uid u' with
              | None => (m1, sent, Raised)
              | Some m2 =>
                  let '(m', sent', st) := reengage_all prev_key rest m2 in
                  (m', (sent ++ sent')%list, st)
              end
          end
      end
  end.

(** [finalize_previous_week_and_reengage]; [prev_key] is
    [previous_week_key(now)], the key of the week before the current one.
    The result is the dictionaries of the users, the messages sent and how
    the function ended. *)
Definition finalize_previous_week_and_reengage (prev_key : string)
    (known : gset Z) (store : user_store)
    : user_store * list reply * status :=
  let '(m, sent, st) :=
    reengage_all prev_key (elements known) (application_user_data store) in
  (contents m, sent, st).

(** ** Updates *)

(** What the handlers registered in [build_app] receive from one user. *)
Inductive update : Type :=
| CmdStart
| CmdMenu
| CmdAdmin
| CmdId
| Button (data : string)
| Text (text : string)
| Photo (file_id : string).

(** The state after one update of the user [uid]. *)
Definition step (cfg : config) (o : oracle) (uid : Z) (username : option string)
    (e : update) (w : world) : world :=
  match e with
  | CmdStart => fst (start o uid username w)
  | CmdMenu => fst (fst (menu cfg o uid w))
  | CmdAdmin => set_bot (fst (admin_panel cfg uid (w_bot w))) w
  | CmdId => w
  | Button data => fst (handle_buttons cfg o uid username data w)
  | Text text => fst (fst (handle_text cfg o uid username text w))
  | Photo file_id => fst (handle_photo file_id w)
  end.

(** The flag of the lookup mode, as [handle_text] tests it. *)
Definition awaiting_lookup (w : world) : bool :=
  truthy (get (w_user w) "awaiting_username_check").

Definition continuous (w : world) : bool :=
  truthy (get (w_user w) "continuous_check_mode").

(** ** The notions the properties are stated with *)

(** The registration-complete flag of a user's dictionary is set. *)
Definition flag_set (u : gmap string value) : Prop :=
  eq_True (get u "registered") = true.

(** The three required fields hold valid data: a name that is not empty,
    a gender among [male] and [female], an age from 14 to 100. *)
Definition fields_complete (u : gmap string value) : Prop :=
  truthy (get u "name") = true
  ∧ (get u "gender" = VStr "male" ∨ get u "gender" = VStr "female")
  ∧ ∃ n, get u "age" = VInt n ∧ 14 ≤ n ≤ 100.

(** The flag says what the fields say. *)
Definition flag_consistent (u : gmap string value) : Prop :=
  flag_set u ↔ fields_complete u.

(** Every row of the table passes the CHECK constraints of the schema. *)
Definition table_valid (t : gmap Z row) : Prop :=
  ∀ k r, t !! k = Some r → row_check r = true.

(** The dictionary [start] examines: the user's, once the row has been
    upserted and loaded. *)
Definition entry_data (o : oracle) (uid : Z) (username : option string)
    (w : world) : gmap string value :=
  load_user_data_from_db o uid
    (try_db o (w_db w) (fun t => upsert_user t uid None None None None username))
    (w_user w).







(** An answer at the age step is turned down: one of the two error
    prompts, and the state of the conversation is what it was. *)
Definition age_rejected (cfg : config) (o : oracle) (uid : Z)
    (username : option string) (w : world) (text : string) : Prop :=
  handle_text cfg o uid username text w = (w, [AgeNotANumber], Returned)
  ∨ handle_text cfg o uid username text w = (w, [AgeOutOfRange], Returned).

(** An answer at the age step is taken as the age [n] and ends the
    registration. *)
Definition age_accepted (cfg : config) (o : oracle) (uid : Z)
    (username : option string) (w : world) (text : string) (n : Z) : Prop :=
  ∃ w', handle_text cfg o uid username text w = (w', [RegistrationDone], Returned)
        ∧ get (w_user w') "age" = VInt n
        ∧ get (w_user w') "registered" = VBool true
        ∧ w_user w' !! "registration_step" = None.

(** A text sent in this state is read by the VK branch of [handle_text]:
    VK is on, the user awaits a VK id, and no earlier branch takes it. *)
Definition vk_linking_mode (cfg : config) (w : world) : Prop :=
  VK_ENABLED cfg = true
  ∧ truthy (get (w_user w) "awaiting_vk") = true
  ∧ truthy (get (w_user w) "registration_step") = false
  ∧ truthy (get (w_user w) "awaiting_username_check") = false
  ∧ truthy (get (w_user w) "awaiting_ticket") = false
  ∧ truthy (get (w_user w) "awaiting_broadcast_text") = false
  ∧ truthy (get (w_user w) "poster_draft") = false.


(** The stored index of the poster is missing or a number. *)
Definition index_well_typed (u : gmap string value) : Prop :=
  match u !! "current_poster_index" with
  | Some v => is_Some (as_int v)
  | None => True
  end.

(** The two keys of the re-engagement pass hold what the pass writes and
    reads: a number of misses and a set of week keys, or nothing. *)
Definition attendance_well_typed (u : gmap string value) : Prop :=
  (u !! "missed_in_row" = None ∨ ∃ n, u !! "missed_in_row" = Some (VInt n))
  ∧ (u !! "attended_weeks" = None ∨ ∃ s, u !! "attended_weeks" = Some (VSet s)).

(** The user's consecutive misses and attended weeks. *)
Definition misses (u : gmap string value) : Z :=
  match u !! "missed_in_row" with Some (VInt n) => n | _ => 0 end.

Definition attended (k : string) (u : gmap string value) : bool :=
  match u !! "attended_weeks" with Some (VSet s) => bool_decide (k ∈ s) | _ => false end.

(** The number of re-engagement messages addressed to [uid]. *)
Definition reengage_count (uid : Z) (l : list reply) : nat :=
  length (filter (fun r => r = Reengage uid) l).

(** A string of [n] times the character [c]. *)
Fixpoint repeat_char (c : ascii) (n : nat) : string :=
  match n with
  | O => EmptyString
  | S n' => String c (repeat_char c n')
  end.

(** Sample values for the checks on concrete inputs. *)
Definition no_failures : oracle :=
  Oracle false false (TgStatus "member") (TgStatus "member") (Some true)
         (Some None) None false.

Definition vk_on : config := Config true 1 0 0.
Definition vk_off : config := Config false 1 0 0.

Definition empty_bot : bot_data := BotData None [] ∅ ∅ ∅ ∅.

(** A world without a connection pool and with the given dictionary. *)
Definition offline (u : gmap string value) : world := World u empty_bot None.

(** The sequence that leaves a stale flag: with no connection pool, a
    press on the gender button, the age "20", then [/start]. *)
Definition stale_flag_state : world :=
  step vk_on no_failures 7 None CmdStart
    (step vk_on no_failures 7 None (Text "20")
       (step vk_on no_failures 7 None (Button "gender_male") (offline ∅))).

(** A regular expression that visibly matches nothing: it has [Void] where
    every match would have to pass. *)
Fixpoint regex_dead (r : Re.regex) : bool :=
  match r with
  | Re.Void => true
  | Re.Eps => false
  | Re.Cls _ => false
  | Re.Cat a b => regex_dead a || regex_dead b
  | Re.Alt a b => regex_dead a && regex_dead b
  | Re.Star _ => false
  end.


(** How many times the reply [r] occurs among the replies [l]. *)
Definition count_reply (r : reply) (l : list reply) : nat :=
  length (filter (fun x => x = r) l).

(** [b'] knows every user and every administrator [b] knows. *)
Definition bot_grows (b b' : bot_data) : Prop :=
  known_users b ⊆ known_users b' ∧ admins b ⊆ admins b'.

(** [d'] is a pool if and only if [d] is, and its table has a row for
    every user who has one in [d]. *)
Definition db_grows (d d' : option (gmap Z row)) : Prop :=
  match d with
  | Some t => ∃ t', d' = Some t' ∧ dom t ⊆ dom t'
  | None => d' = None
  end.

(** Nothing known in [w] is forgotten in [w']. *)
Definition never_forgets (w w' : world) : Prop :=
  bot_grows (w_bot w) (w_bot w') ∧ db_grows (w_db w) (w_db w').

(** Some character class of [r] holds of [c]: a text matched by [r] is
    made of such characters. *)
Fixpoint accepts_char (r : Re.regex) (c : ascii) : bool :=
  match r with
  | Re.Void => false
  | Re.Eps => false
  | Re.Cls p => p c
  | Re.Cat a b => accepts_char a c || accepts_char b c
  | Re.Alt a b => accepts_char a c || accepts_char b c
  | Re.Star a => accepts_char a c
  end.

(** The keys of [context.user_data] the handlers write. *)
Definition handler_keys : list string :=
  ["name"; "gender"; "age"; "vk_id"; "registered"; "registration_step";
   "awaiting_vk"; "awaiting_username_check"; "continuous_check_mode";
   "awaiting_ticket"; "awaiting_broadcast_text"; "poster_draft";
   "current_poster_index"].

(** ** The settings read from the environment *)

(** [s.endswith(c)] for one character *)
Fixpoint endswith_char (c : ascii) (s : string) : bool :=
  match s with
  | EmptyString => false
  | String d EmptyString => Ascii.eqb c d
  | String _ r => endswith_char c r
  end.

(** [s.startswith(c)] for one character *)
Definition startswith_char (c : ascii) (s : string) : bool :=
  match s with
  | EmptyString => false
  | String d _ => Ascii.eqb c d
  end.

(** [s[1:-1]] *)
Definition inner (s : string) : string :=
  Py.take (String.length s - 2) (Py.drop 1 s).

(** The two quote characters *)
Definition double_quote : ascii := ascii_of_N 34.
Definition single_quote : ascii := ascii_of_N 39.

(** [_clean_env]: [None] and the empty string read as the empty string;
    one pair of matching quotes around the stripped value is removed. *)
Definition _clean_env (v : option string) : string :=
  let v := Py.strip (default "" v) in
  if (startswith_char double_quote v && endswith_char double_quote v)
     || (startswith_char single_quote v && endswith_char single_quote v)
  then Py.strip (inner v) else v.

(** [_get_env]: the process environment, then the values read from the
    [.env] file (a key without a value reads as [None]), then the
    default. *)
Definition _get_env (environ : gmap string string)
    (fallback : gmap string (option string)) (key dflt : string) : string :=
  let from_file := default (Some dflt) (fallback !! key) in
  _clean_env
    match environ !! key with
    | Some s => if Py.nonempty s then Some s else from_file
    | None => from_file
    end.

(** [int(s) if s.isdigit() else 0], the reading of the three
    [ADMIN_USER_ID] settings; [None] stands for the [ValueError] that stops
    the module from loading. *)
Definition admin_id_of (s : string) : option Z :=
  if Py.isdigit s then Py.int s else Some 0.

(** The number a string of decimal digits denotes, after the digits
    already read as [acc]. *)
Fixpoint decimal_value (acc : Z) (s : string) : Z :=
  match s with
  | EmptyString => acc
  | String c r => decimal_value (10 * acc + (Py.code c - 48)) r
  end.

(** ** Start-up *)

(** [get_all_user_ids]: the ids of all rows, in the order the database
    gives them. *)
Definition get_all_user_ids (t : gmap Z row) : list Z := (map_to_list t).*1.

(** [load_user_vk_data]: the VK id of every row that has one. *)
Definition load_user_vk_data (t : gmap Z row) : gmap Z string := omap r_vk_id t.

(** [_on_startup].  [pool] is the table behind the pool that
    [create_pool] and [init_schema] deliver, [None] when one of them
    raises; [ids_raise] and [vk_raise] say that the query of
    [get_all_user_ids], of [load_user_vk_data], raises.  Any exception
    ends the function; what was assigned before stays.  The result is the
    shared dictionary and the pool stored in it. *)
Definition _on_startup (pool : option (gmap Z row)) (ids_raise vk_raise : bool)
    (b : bot_data) : bot_data * option (gmap Z row) :=
  match pool with
  | None => (b, None)
  | Some t =>
      if ids_raise then (b, Some t)
      else
        let b1 := set_known_users (list_to_set (get_all_user_ids t)) b in
        if vk_raise then (b1, Some t)
        else (set_user_vk_cache (load_user_vk_data t) b1, Some t)
  end.

(** [WEEKLY_HOUR_UTC = (WEEKLY_HOUR_LOCAL - 3) % 24]; Python's [%] with a
    positive divisor is [Z.modulo]. *)
Definition WEEKLY_HOUR_UTC (WEEKLY_HOUR_LOCAL : Z) : Z :=
  (WEEKLY_HOUR_LOCAL - 3) mod 24.



(** * Properties *)

(** *** Loading a user *)

(** [load_user_data_from_db] writes the five keys it names and no other. *)
Lemma load_other_keys o uid d u k :
  k ≠ "name" → k ≠ "gender" → k ≠ "age" → k ≠ "vk_id" → k ≠ "registered" →
  load_user_data_from_db o uid d u !! k = u !! k.
Proof.
  intros. unfold load_user_data_from_db.
  destruct d as [t|]; [|done].
  destruct (get_user_raises o); [done|].
  destruct (get_user t uid) as [r|].
  - destruct (truthy (of_text (r_vk_id r))); by simplify_map_eq.
  - by simplify_map_eq.
Qed.

(** When the row is found, the three fields are the stored ones and the
    flag says whether all three are there. *)
Lemma load_found o uid t r u :
  get_user_raises o = false → t !! uid = Some r →
  let u' := load_user_data_from_db o uid (Some t) u in
  get u' "name" = of_text (r_name r)
  ∧ get u' "gender" = of_text (r_gender r)
  ∧ get u' "age" = of_int (r_age r)
  ∧ get u' "registered"
    = VBool (truthy (of_text (r_name r)) && truthy (of_text (r_gender r))
             && negb (is_None (of_int (r_age r)))).
Proof.
  intros Hup Hrow. unfold load_user_data_from_db, get_user, get.
  rewrite Hup, Hrow.
  destruct (truthy (of_text (r_vk_id r))); by simplify_map_eq.
Qed.

(** When there is no row, the three fields are gone and the flag is off. *)
Lemma load_missing o uid t u :
  get_user_raises o = false → t !! uid = None →
  let u' := load_user_data_from_db o uid (Some t) u in
  get u' "name" = VNone ∧ get u' "gender" = VNone ∧ get u' "age" = VNone
  ∧ get u' "registered" = VBool false.
Proof.
  intros Hup Hrow. unfold load_user_data_from_db, get_user, get.
  rewrite Hup, Hrow. by simplify_map_eq.
Qed.

(** The row [/start] upserts keeps its name, gender and age. *)
Lemma start_upsert_keeps_fields o uid username t r :
  t !! uid = Some r →
  ∃ t' r', try_db o (Some t)
             (fun t => upsert_user t uid None None None None username) = Some t'
           ∧ t' !! uid = Some r'
           ∧ r_name r' = r_name r ∧ r_gender r' = r_gender r ∧ r_age r' = r_age r.
Proof.
  intros Hrow. unfold try_db, upsert_user. rewrite Hrow.
  destruct (upsert_raises o); [exists t, r; by rewrite Hrow|].
  destruct (upsert_accepted _ _ _ _ _); [|exists t, r; by rewrite Hrow].
  eexists _, _. split; [reflexivity|]. by rewrite lookup_insert_eq.
Qed.

(** *** Resuming the registration *)

Lemma start_unfold o uid username w :
  start o uid username w =
  let b := add_known_user uid (w_bot w) in
  let d := try_db o (w_db w)
             (fun t => upsert_user t uid None None None None username) in
  let u := entry_data o uid username w in
  if is_registered u then
    (World (delete "awaiting_username_check" (delete "awaiting_vk"
              (delete "registration_step" u))) b d,
     [AlreadyRegistered])
  else if has_partial_data u then
    if negb (truthy (get u "name")) then
      (World (<["registration_step" := VStr "name"]> u) b d, [ContinueAskName])
    else if negb (truthy (get u "gender")) then
      (World (<["registration_step" := VStr "gender"]> u) b d, [ContinueAskGender])
    else if is_None (get u "age") then
      (World (<["registration_step" := VStr "age"]> u) b d, [ContinueAskAge])
    else (World u b d, [])
  else
    (World (<["registration_step" := VStr "name"]> u) b d, [WelcomeAskName]).
Proof. reflexivity. Qed.

(** C3.  [/start] resumes a registration at the first missing field of
    the data it has just loaded, which are the persisted ones whenever the
    row can be read: with a name and no gender it asks for the gender,
    with a name and a gender and no age it asks for the age, and with
    none of the three it starts at the name.  When the name is the missing
    one while a gender or an age is there, it asks for the name, again the
    first missing field. *)
Theorem start_resumes_at_first_missing_field o uid username w :
  let u := entry_data o uid username w in
  let w' := fst (start o uid username w) in
  let prompt := snd (start o uid username w) in
  (∀ t r, w_db w = Some t → get_user_raises o = false → t !! uid = Some r →
     get u "name" = of_text (r_name r)
     ∧ get u "gender" = of_text (r_gender r)
     ∧ get u "age" = of_int (r_age r))
  ∧ (truthy (get u "name") = true → truthy (get u "gender") = false →
     w_user w' = <["registration_step" := VStr "gender"]> u
     ∧ prompt = [ContinueAskGender])
  ∧ (truthy (get u "name") = true → truthy (get u "gender") = true →
     get u "age" = VNone →
     w_user w' = <["registration_step" := VStr "age"]> u
     ∧ prompt = [ContinueAskAge])
  ∧ (truthy (get u "name") = false → truthy (get u "gender") = false →
     get u "age" = VNone →
     w_user w' = <["registration_step" := VStr "name"]> u
     ∧ prompt = [WelcomeAskName])
  ∧ (truthy (get u "name") = false →
     truthy (get u "gender") = true ∨ get u "age" ≠ VNone →
     w_user w' = <["registration_step" := VStr "name"]> u
     ∧ prompt = [ContinueAskName]).
Proof.
  intros u w' prompt. subst w' prompt. rewrite start_unfold. fold u. cbv zeta.
  split; [|split; [|split; [|split]]].
  - intros t r Hdb Hup Hrow. subst u. unfold entry_data. rewrite Hdb.
    destruct (start_upsert_keeps_fields o uid username t r Hrow)
      as (t' & r' & -> & Hrow' & Hn & Hg & Ha).
    destruct (load_found o uid t' r' (w_user w) Hup Hrow') as (-> & -> & -> & _).
    by rewrite Hn, Hg, Ha.
  - intros Hname Hgender.
    unfold is_registered, has_partial_data. rewrite Hname, Hgender. simpl.
    rewrite andb_false_r. simpl. done.
  - intros Hname Hgender Hage.
    unfold is_registered, has_partial_data. rewrite Hname, Hgender, Hage. simpl.
    rewrite andb_false_r. simpl. done.
  - intros Hname Hgender Hage.
    unfold is_registered, has_partial_data. rewrite Hname, Hgender, Hage. simpl.
    rewrite !andb_false_r. simpl. done.
  - intros Hname Hrest.
    unfold is_registered, has_partial_data. rewrite Hname.
    rewrite andb_false_r. cbn [andb orb negb].
    replace (truthy (get u "gender") || negb (is_None (get u "age"))) with true;
      [done|].
    destruct Hrest as [-> | Hage]; [done|].
    destruct (get u "age"); try done; cbn; by rewrite orb_true_r.
Qed.

Lemma start_resumes_at_first_missing_field_witness :
  snd (start no_failures 7 None
         (World ∅ empty_bot (Some {[7 := Row (Some "Ann") None None None None]})))
  = [ContinueAskGender].
Proof.
  apply (start_resumes_at_first_missing_field no_failures 7 None
           (World ∅ empty_bot (Some {[7 := Row (Some "Ann") None None None None]})));
    reflexivity.
Defined.
(** *** The age step *)

Lemma handle_text_age_step cfg o uid username text w :
  get (w_user w) "registration_step" = VStr "age" →
  Py.nonempty text = true →
  handle_text cfg o uid username text w
  = (handle_registration_step o uid username text (VStr "age") w, Returned).
Proof.
  intros Hstep Htext. unfold handle_text. rewrite Htext, Hstep. reflexivity.
Qed.

Lemma age_step_cases cfg o uid username w text :
  get (w_user w) "registration_step" = VStr "age" →
  Py.nonempty text = true →
  match Py.int (Py.strip text) with
  | Some n =>
      if (14 <=? n) && (n <=? 100)
      then age_accepted cfg o uid username w text n
      else age_rejected cfg o uid username w text
  | None => age_rejected cfg o uid username w text
  end.
Proof.
  intros Hstep Htext.
  unfold age_accepted, age_rejected.
  rewrite (handle_text_age_step _ _ _ _ _ _ Hstep Htext).
  unfold handle_registration_step.
  rewrite bool_decide_eq_false_2 by discriminate.
  rewrite bool_decide_eq_true_2 by reflexivity.
  destruct (Py.int (Py.strip text)) as [n|]; [|by left].
  destruct (Z.leb_spec 14 n), (Z.leb_spec n 100); simpl.
  - replace (n <? 14) with false by lia. replace (n >? 100) with false by lia. simpl.
    eexists; split; [reflexivity|]. simpl.
    repeat split;
      (destruct (truthy _); [|destruct (fetch_name _ _ _)]);
      unfold get; by simplify_map_eq.
  - replace (n >? 100) with true by lia. rewrite orb_true_r. by right.
  - replace (n <? 14) with true by lia. by right.
  - replace (n <? 14) with true by lia. by right.
Qed.

(** C4.  At the age step of the registration every text is judged by
    [int(text.strip())]: a text that does not parse, or parses outside
    14..100, is answered by an error prompt and leaves the state as it
    was; a text that parses to 14..100 stores the age, sets the flag and
    ends the step.  So "13", "101" and "abc" are turned down, "14" and
    "100" are taken. *)
Theorem age_step_accepts_exactly_14_to_100 cfg o uid username w :
  get (w_user w) "registration_step" = VStr "age" →
  (∀ text, Py.nonempty text = true →
     match Py.int (Py.strip text) with
     | Some n =>
         if (14 <=? n) && (n <=? 100)
         then age_accepted cfg o uid username w text n
         else age_rejected cfg o uid username w text
     | None => age_rejected cfg o uid username w text
     end)
  ∧ age_rejected cfg o uid username w "13"
  ∧ age_rejected cfg o uid username w "101"
  ∧ age_rejected cfg o uid username w "abc"
  ∧ age_accepted cfg o uid username w "14" 14
  ∧ age_accepted cfg o uid username w "100" 100.
Proof.
  intros Hstep. split; [intros text Htext; by apply age_step_cases|].
  repeat split.
  - exact (age_step_cases cfg o uid username w "13" Hstep eq_refl).
  - exact (age_step_cases cfg o uid username w "101" Hstep eq_refl).
  - exact (age_step_cases cfg o uid username w "abc" Hstep eq_refl).
  - exact (age_step_cases cfg o uid username w "14" Hstep eq_refl).
  - exact (age_step_cases cfg o uid username w "100" Hstep eq_refl).
Qed.

Lemma age_step_accepts_exactly_14_to_100_witness :
  age_accepted vk_on no_failures 7 None
    (offline {["registration_step" := VStr "age"]}) "14" 14.
Proof.
  apply (age_step_accepts_exactly_14_to_100 vk_on no_failures 7 None
           (offline {["registration_step" := VStr "age"]})).
  reflexivity.
Defined.

(** *** The registration flag *)

(** The flag and the fields are read from four keys. *)
Lemma flag_consistent_ext u u' :
  u' !! "registered" = u !! "registered" → u' !! "name" = u !! "name" →
  u' !! "gender" = u !! "gender" → u' !! "age" = u !! "age" →
  flag_consistent u → flag_consistent u'.
Proof.
  unfold flag_consistent, flag_set, fields_complete, get.
  by intros -> -> -> ->.
Qed.

(** A row that passes the CHECK constraints has all three fields exactly
    when its name is not empty, its gender is one of the two and its age
    is within 14..100. *)
Lemma row_check_fields r :
  row_check r = true →
  truthy (of_text (r_name r)) && truthy (of_text (r_gender r))
  && negb (is_None (of_int (r_age r))) = true
  ↔ truthy (of_text (r_name r)) = true
    ∧ (of_text (r_gender r) = VStr "male" ∨ of_text (r_gender r) = VStr "female")
    ∧ ∃ n, of_int (r_age r) = VInt n ∧ 14 ≤ n ≤ 100.
Proof.
  unfold row_check, gender_check, age_check.
  intros [Hg Ha]%andb_true_iff.
  rewrite !andb_true_iff. split.
  - intros [[Hn Hgt] Hat]. split; [done|]. split.
    + destruct (r_gender r) as [g|]; [|done]. simpl.
      apply orb_true_iff in Hg as [->%String.eqb_eq | ->%String.eqb_eq]; auto.
    + destruct (r_age r) as [n|]; [|done]. exists n. split; [done|]. lia.
  - intros (Hn & Hgt & n & Hat & _). split; [split; [done|]|].
    + by destruct Hgt as [-> | ->].
    + by rewrite Hat.
Qed.

(** Once the table has been read, the flag says what the fields say. *)
Lemma load_consistent o uid t u :
  get_user_raises o = false → table_valid t →
  flag_consistent (load_user_data_from_db o uid (Some t) u).
Proof.
  intros Hup Hvalid. unfold flag_consistent, flag_set, fields_complete.
  destruct (t !! uid) as [r|] eqn:Hrow.
  - destruct (load_found o uid t r u Hup Hrow) as (-> & -> & -> & ->). simpl.
    apply row_check_fields. by eapply Hvalid.
  - destruct (load_missing o uid t u Hup Hrow) as (-> & -> & -> & ->). simpl.
    split; [done|]. by intros [? _].
Qed.

(** [upsert_user] and [set_vk_id] keep the table within its constraints. *)
Lemma upsert_user_valid t tg_id name gender age vk_id username t' :
  table_valid t →
  upsert_user t tg_id name gender age vk_id username = Some t' →
  table_valid t'.
Proof.
  unfold upsert_user, upsert_accepted. intros Hvalid Hup.
  destruct (_ && age_check age) eqn:Hcheck; [|done].
  apply andb_true_iff in Hcheck as [[_ Hg]%andb_true_iff Ha].
  injection Hup as <-. intros k r.
  destruct (decide (tg_id = k)) as [->|Hne].
  - rewrite lookup_insert_eq. intros [= <-].
    destruct (t !! k) as [old|] eqn:Hold; simpl.
    + apply Hvalid in Hold. unfold row_check in Hold.
      apply andb_true_iff in Hold as [Hg' Ha'].
      unfold row_check. destruct gender, age; cbn [coalesce r_gender r_age];
        by rewrite ?Hg, ?Ha, ?Hg', ?Ha'.
    + unfold row_check. cbn [r_gender r_age]. by rewrite Hg, Ha.
  - rewrite lookup_insert_ne by done. apply Hvalid.
Qed.

Lemma set_vk_id_valid t tg_id vk_id :
  table_valid t → table_valid (set_vk_id t tg_id vk_id).
Proof.
  unfold set_vk_id. intros Hvalid k r.
  rewrite lookup_alter. case_decide as Hk.
  - subst k. destruct (t !! tg_id) as [old|] eqn:Hold; [|done].
    simpl. intros [= <-]. apply Hvalid in Hold. exact Hold.
  - apply Hvalid.
Qed.

Lemma try_db_valid o t f :
  table_valid t → (∀ t', f t = Some t' → table_valid t') →
  ∃ t', try_db o (Some t) f = Some t' ∧ table_valid t'.
Proof.
  intros Hvalid Hf. unfold try_db.
  destruct (upsert_raises o); [by exists t|].
  destruct (f t) as [t'|] eqn:Hft; [|by exists t].
  exists t'. split; [done|]. by apply Hf.
Qed.

(** What [/start] leaves in the dictionary, on the four keys. *)
Lemma start_keeps_account o uid username w k :
  k ≠ "registration_step" → k ≠ "awaiting_vk" → k ≠ "awaiting_username_check" →
  w_user (fst (start o uid username w)) !! k = entry_data o uid username w !! k.
Proof.
  intros. rewrite start_unfold. cbv zeta.
  repeat case_match; simpl; by simplify_map_eq.
Qed.

(** [show_main_menu] loads the user and then writes the index only. *)
Lemma menu_index_other_keys u n k :
  k ≠ "current_poster_index" → fst (menu_index u n) !! k = u !! k.
Proof.
  intros. unfold menu_index.
  repeat case_match; simpl; by simplify_map_eq.
Qed.

Lemma show_main_menu_user cfg o uid w k :
  k ≠ "current_poster_index" →
  w_user (fst (fst (show_main_menu cfg o uid w))) !! k
  = load_user_data_from_db o uid (w_db w) (w_user w) !! k.
Proof.
  intros Hk. unfold show_main_menu.
  destruct (menu_posters (w_bot w)) as [|p ps] eqn:Hposters; [done|].
  set (u := load_user_data_from_db o uid (w_db w) (w_user w)).
  set (n := Z.of_nat (length (p :: ps))).
  pose proof (menu_index_other_keys u n k Hk) as Hidx.
  destruct (menu_index u n) as [u1 [i|]]; simpl in *; [|done].
  by destruct (py_index (p :: ps) i).
Qed.

(** With no connection pool, a press on the gender button, the age 20 and
    [/start] leave the flag set although there is no name: [/start] has
    not recomputed it. *)
Lemma start_leaves_stale_flag : ¬ flag_consistent (w_user stale_flag_state).
Proof.
  unfold flag_consistent. intros [Hflag _].
  assert (Hset : flag_set (w_user stale_flag_state)) by reflexivity.
  destruct (Hflag Hset) as [Hname _].
  vm_compute in Hname. discriminate.
Qed.

(** The test of [start] and [menu], spelt out. *)
Lemma is_registered_spec u :
  is_registered u = true
  ↔ flag_set u ∧ truthy (get u "name") = true
    ∧ truthy (get u "gender") = true ∧ get u "age" ≠ VNone.
Proof.
  unfold is_registered, flag_set. rewrite !andb_true_iff, negb_true_iff.
  split.
  - intros [[[Hflag Hname] Hgender] Hage]. repeat split; try done.
    intros Hnone. by rewrite Hnone in Hage.
  - intros (Hflag & Hname & Hgender & Hage). repeat split; try done.
    by destruct (get u "age").
Qed.

(** Without a pool, or when the query raises, nothing is loaded. *)
Lemma load_unreadable o uid d u :
  d = None ∨ get_user_raises o = true → load_user_data_from_db o uid d u = u.
Proof.
  intros [-> | Hr]; [done|]. unfold load_user_data_from_db.
  destruct d; [|done]. by rewrite Hr.
Qed.

Lemma entry_data_unreadable o uid username w :
  w_db w = None ∨ get_user_raises o = true → entry_data o uid username w = w_user w.
Proof.
  intros H. unfold entry_data. apply load_unreadable.
  destruct H as [-> | Hr]; [by left|by right].
Qed.

(** [show_main_menu] never answers that a registration is needed. *)
Lemma show_main_menu_replies cfg o uid w :
  snd (fst (show_main_menu cfg o uid w)) ≠ [NeedRegistration].
Proof.
  unfold show_main_menu, send_menu_poster.
  repeat case_match; cbn [fst snd]; done.
Qed.

(** C1, amended.  Whenever the table can be read, loading a user sets the
    flag to what the stored fields say: true exactly when the name is not
    empty, the gender is male or female and the age is within 14..100 (the
    last two through the CHECK constraints of the table), and this is the
    state [/start] and [/menu] leave.  Without a pool, or when the query
    raises, loading changes nothing, and [/start] and [/menu] leave the
    flag and the three fields as they were.  In every case [/start] answers
    that the user is registered, and [/menu] does not answer that a
    registration is needed, exactly when the flag is set and the three
    fields are there in the data just loaded. *)
Theorem load_recomputes_registration_flag cfg o uid username w :
  let loaded := load_user_data_from_db o uid (w_db w) (w_user w) in
  let entered := entry_data o uid username w in
  let after_start := w_user (fst (start o uid username w)) in
  let after_menu := w_user (fst (fst (menu cfg o uid w))) in
  (∀ t, w_db w = Some t → get_user_raises o = false → table_valid t →
     flag_consistent loaded ∧ flag_consistent after_start
     ∧ flag_consistent after_menu)
  ∧ (w_db w = None ∨ get_user_raises o = true →
     loaded = w_user w ∧ entered = w_user w
     ∧ ∀ k, k = "registered" ∨ k = "name" ∨ k = "gender" ∨ k = "age" →
         after_start !! k = w_user w !! k ∧ after_menu !! k = w_user w !! k)
  ∧ (snd (start o uid username w) = [AlreadyRegistered]
     ↔ flag_set entered ∧ truthy (get entered "name") = true
       ∧ truthy (get entered "gender") = true ∧ get entered "age" ≠ VNone)
  ∧ (snd (fst (menu cfg o uid w)) = [NeedRegistration]
     ↔ ¬ (flag_set loaded ∧ truthy (get loaded "name") = true
          ∧ truthy (get loaded "gender") = true ∧ get loaded "age" ≠ VNone)).
Proof.
  intros loaded entered after_start after_menu.
  assert (Hmenu_keys : ∀ k, k ≠ "current_poster_index" →
            after_menu !! k
            = load_user_data_from_db o uid (w_db w) loaded !! k
              ∨ after_menu !! k = loaded !! k).
  { intros k Hk. subst after_menu. unfold menu. fold loaded.
    destruct (is_registered loaded); simpl; [|by right].
    left. by rewrite show_main_menu_user. }
  split; [|split; [|split]].
  - intros t Hdb Hup Hvalid. split; [|split].
    + subst loaded. rewrite Hdb. by apply load_consistent.
    + destruct (try_db_valid o t
                  (fun t => upsert_user t uid None None None None username) Hvalid)
        as (t' & Htry & Hvalid'); [intros t'; by apply upsert_user_valid|].
      apply (flag_consistent_ext (entry_data o uid username w)).
      1-4: by apply start_keeps_account.
      unfold entry_data. rewrite Hdb, Htry. by apply load_consistent.
    + subst after_menu. unfold menu. fold loaded.
      assert (Hu : flag_consistent loaded)
        by (subst loaded; rewrite Hdb; by apply load_consistent).
      destruct (is_registered loaded); simpl; [|done].
      eapply flag_consistent_ext;
        [apply show_main_menu_user; done .. |].
      simpl. rewrite Hdb. by apply load_consistent.
  - intros Hun.
    assert (Hl : loaded = w_user w) by (by apply load_unreadable).
    assert (He : entered = w_user w) by (by apply entry_data_unreadable).
    split; [done|]. split; [done|].
    intros k Hk. split.
    + subst after_start. rewrite start_keeps_account.
      * fold entered. by rewrite He.
      * by destruct Hk as [-> | [-> | [-> | ->]]].
      * by destruct Hk as [-> | [-> | [-> | ->]]].
      * by destruct Hk as [-> | [-> | [-> | ->]]].
    + destruct (Hmenu_keys k) as [-> | ->].
      * by destruct Hk as [-> | [-> | [-> | ->]]].
      * rewrite Hl. by rewrite (load_unreadable o uid (w_db w) (w_user w) Hun).
      * by rewrite Hl.
  - rewrite <- is_registered_spec. rewrite start_unfold. fold entered. cbv zeta.
    destruct (is_registered entered); [done|].
    repeat case_match; cbn [snd]; split; intros; discriminate.
  - rewrite <- is_registered_spec. unfold menu. fold loaded.
    destruct (is_registered loaded); simpl.
    + split; [|by intros []]. intros H.
      by apply show_main_menu_replies in H.
    + split; [by intros _ ?|done].
Qed.

Lemma load_recomputes_registration_flag_witness :
  flag_consistent
    (load_user_data_from_db no_failures 7
       (Some {[7 := Row (Some "Ann") (Some "female") (Some 30) None None]}) ∅).
Proof.
  apply (proj1 (load_recomputes_registration_flag vk_on no_failures 7 None
           (World ∅ empty_bot
              (Some {[7 := Row (Some "Ann") (Some "female") (Some 30) None None]})))
           {[7 := Row (Some "Ann") (Some "female") (Some 30) None None]}).
  - reflexivity.
  - reflexivity.
  - intros k r Hrow. apply lookup_singleton_Some in Hrow as [_ <-]. reflexivity.
Defined.

(** *** Membership verdicts *)







(** Once registration is over, a text sent while the lookup flag is set is
    read as a lookup. *)
Lemma handle_text_lookup cfg o uid username text w :
  truthy (get (w_user w) "registration_step") = false →
  awaiting_lookup w = true → Py.nonempty text = true →
  handle_text cfg o uid username text w = (handle_lookup cfg o text w, Returned).
Proof.
  intros Hreg Haw Hne. unfold handle_text, awaiting_lookup in *.
  by rewrite Hne, Hreg, Haw.
Qed.





(** *** The index of the poster in the menu *)

(** The index [menu_index] settles: the newest poster when none is stored,
    and the stored one brought back into range otherwise. *)
Lemma menu_index_cases u n :
  0 < n → index_well_typed u →
  match u !! "current_poster_index" with
  | None => snd (menu_index u n) = Some (n - 1)
  | Some v =>
      ∃ k, as_int v = Some k
           ∧ snd (menu_index u n)
             = Some (if k >=? n then n - 1 else if k <? 0 then 0 else k)
  end.
Proof.
  intros Hn Htyped. unfold index_well_typed in Htyped. unfold menu_index.
  destruct (u !! "current_poster_index") as [v|] eqn:Hv.
  - destruct Htyped as [k Hk]. exists k. split; [done|].
    rewrite Hv. simpl. rewrite Hk.
    destruct (k >=? n); [done|]. by destruct (k <? 0).
  - rewrite lookup_insert_eq. simpl.
    replace (n - 1 >=? n) with false by lia.
    by replace (n - 1 <? 0) with false by lia.
Qed.

Lemma py_index_in_range {A} (l : list A) i :
  0 ≤ i < Z.of_nat (length l) → py_index l i = l !! Z.to_nat i ∧ is_Some (l !! Z.to_nat i).
Proof.
  intros Hi. unfold py_index.
  replace ((0 <=? i) && (i <? Z.of_nat (length l))) with true
    by (symmetry; apply andb_true_iff; lia).
  split; [done|]. apply lookup_lt_is_Some. lia.
Qed.

(** C10.  When there is a poster to show, [show_main_menu] reads the list
    at an index within its bounds and returns: a stored index at or past
    the length is replaced by the last index, a negative one by 0, a
    missing one by the last index, and an index within range is used as it
    is. *)
Theorem menu_reads_poster_in_range cfg o uid w :
  menu_posters (w_bot w) ≠ [] → index_well_typed (w_user w) →
  let posters := menu_posters (w_bot w) in
  let n := Z.of_nat (length posters) in
  let u := load_user_data_from_db o uid (w_db w) (w_user w) in
  let b := set_all_posters posters (w_bot w) in
  ∃ i p,
    snd (menu_index u n) = Some i
    ∧ 0 ≤ i < n
    ∧ py_index posters i = Some p
    ∧ posters !! Z.to_nat i = Some p
    ∧ show_main_menu cfg o uid w
      = (World (fst (menu_index u n)) (get_admins cfg b) (w_db w),
         send_menu_poster b i p n, Returned)
    ∧ match w_user w !! "current_poster_index" with
      | None => i = n - 1
      | Some v =>
          ∃ k, as_int v = Some k
               ∧ (n ≤ k → i = n - 1) ∧ (k < 0 → i = 0) ∧ (0 ≤ k < n → i = k)
      end.
Proof.
  intros Hposters Htyped posters n u b.
  assert (Hn : 0 < n).
  { subst n posters. destruct (menu_posters (w_bot w)); [done|]. simpl. lia. }
  assert (Hkey : u !! "current_poster_index" = w_user w !! "current_poster_index")
    by (subst u; by apply load_other_keys).
  assert (Htyped' : index_well_typed u)
    by (unfold index_well_typed; by rewrite Hkey).
  pose proof (menu_index_cases u n Hn Htyped') as Hcases. rewrite Hkey in Hcases.
  assert (Hi : ∃ i, snd (menu_index u n) = Some i ∧ 0 ≤ i < n
                    ∧ match w_user w !! "current_poster_index" with
                      | None => i = n - 1
                      | Some v =>
                          ∃ k, as_int v = Some k ∧ (n ≤ k → i = n - 1)
                               ∧ (k < 0 → i = 0) ∧ (0 ≤ k < n → i = k)
                      end).
  { destruct (w_user w !! "current_poster_index") as [v|].
    - destruct Hcases as (k & Hk & ->). eexists. split; [done|].
      destruct (Z.geb_spec k n), (Z.ltb_spec k 0);
        (split; [lia|]); exists k; repeat split; try done; lia.
    - eexists. split; [done|]. split; [lia|done]. }
  destruct Hi as (i & Hidx & Hrange & Hclamp).
  destruct (py_index_in_range posters i Hrange) as [Hpy [p Hp]].
  exists i, p. repeat split; try done; try lia.
  - by rewrite Hpy.
  - unfold show_main_menu. fold posters. fold u. fold n. fold b.
    destruct posters as [|q qs] eqn:Hq; [done|].
    destruct (menu_index u n) as [u1 oi]. simpl in Hidx. subst oi.
    rewrite Hpy, Hp. done.
Qed.

Lemma menu_reads_poster_in_range_witness :
  ∃ i p,
    snd (menu_index {["current_poster_index" := VInt 9]} 2) = Some i
    ∧ 0 ≤ i < 2
    ∧ py_index [0%nat; 1%nat] i = Some p.
Proof.
  destruct (menu_reads_poster_in_range vk_on no_failures 7
              (World {["current_poster_index" := VInt 9]}
                     (BotData None [0%nat; 1%nat]
                        {[0%nat := {["file_id" := Some "a"]};
                          1%nat := {["file_id" := Some "b"]}]} ∅ ∅ ∅)
                     None))
    as (i & p & H1 & H2 & H3 & _).
  - discriminate.
  - unfold index_well_typed. simpl. by eexists.
  - exists i, p. repeat split; first [exact H1 | apply H2 | exact H3].
Defined.

(** *** Deleting a poster *)


Lemma delete_poster_button_state arg i b deleted :
  Py.int arg = Some (Z.of_nat i) → all_posters b !! i = Some deleted →
  fst (delete_poster_button arg b)
  = let b1 := set_all_posters (pop_at i (all_posters b)) b in
    if match poster b with
       | Some p => bool_decide (deref b p = deref b deleted)
       | None => false
       end
    then repoint b1 else b1.
Proof.
  intros Harg Hdel. unfold delete_poster_button. rewrite Harg.
  pose proof (lookup_lt_Some _ _ _ Hdel) as Hlt.
  replace ((0 <=? Z.of_nat i) && (Z.of_nat i <? Z.of_nat (length (all_posters b))))
    with true by (symmetry; apply andb_true_iff; lia).
  rewrite Nat2Z.id, Hdel. cbv zeta.
  by destruct (deref b deleted !! "caption") as [[?|]|].
Qed.

(** C7.  Deleting the poster at an index within the list leaves the other
    posters in their order, and the dictionaries as they are; when the
    deleted poster equals the current one, the current poster becomes the
    last of those left, or is absent when none is left; otherwise it stays.
    So deleting index 2 of three posters leaves the first two, and the
    second becomes current if the third was. *)
Theorem delete_poster_keeps_the_rest arg i b deleted :
  Py.int arg = Some (Z.of_nat i) → all_posters b !! i = Some deleted →
  let b' := fst (delete_poster_button arg b) in
  let was_current := ∃ p, poster b = Some p ∧ deref b p = deref b deleted in
  all_posters b' = (take i (all_posters b) ++ drop (S i) (all_posters b))%list
  ∧ length (all_posters b') = (length (all_posters b) - 1)%nat
  ∧ objects b' = objects b
  ∧ (was_current → poster b' = last (all_posters b'))
  ∧ (¬ was_current → poster b' = poster b)
  ∧ (∀ p0 p1 p2, all_posters b = [p0; p1; p2] → i = 2%nat →
       all_posters b' = [p0; p1] ∧ (was_current → poster b' = Some p1)).
Proof.
  intros Harg Hdel b' was_current. subst b'.
  rewrite (delete_poster_button_state arg i b deleted Harg Hdel). cbv zeta.
  pose proof (lookup_lt_Some _ _ _ Hdel) as Hlt.
  assert (Hcur : (match poster b with
                  | Some p => bool_decide (deref b p = deref b deleted)
                  | None => false
                  end) = true ↔ was_current).
  { subst was_current. destruct (poster b) as [p|].
    - rewrite bool_decide_eq_true. split; [by exists p|]. by intros (? & [= <-] & ?).
    - split; [done|]. by intros (? & ? & ?). }
  assert (Hlen : length (pop_at i (all_posters b)) = (length (all_posters b) - 1)%nat).
  { unfold pop_at. rewrite length_app, length_take, length_drop. lia. }
  destruct (match poster b with Some p => _ | None => _ end) eqn:Hmatch.
  - assert (Hwas : was_current) by by apply Hcur.
    split; [done|]. split; [done|]. split; [done|]. split; [done|].
    split; [done|].
    intros p0 p1 p2 Hl ->. simpl. by rewrite Hl.
  - assert (Hnot : ¬ was_current) by (intros H%Hcur; discriminate).
    split; [done|]. split; [done|]. split; [done|]. split; [done|].
    split; [done|].
    intros p0 p1 p2 Hl ->. simpl. by rewrite Hl.
Qed.

Lemma delete_poster_keeps_the_rest_witness :
  all_posters
    (fst (delete_poster_button "2"
            (BotData (Some 2%nat) [0%nat; 1%nat; 2%nat]
               {[0%nat := {["file_id" := Some "a"]};
                 1%nat := {["file_id" := Some "b"]};
                 2%nat := {["file_id" := Some "c"]}]} ∅ ∅ ∅)))
  = [0%nat; 1%nat].
Proof.
  apply (delete_poster_keeps_the_rest "2" 2
           (BotData (Some 2%nat) [0%nat; 1%nat; 2%nat]
              {[0%nat := {["file_id" := Some "a"]};
                1%nat := {["file_id" := Some "b"]};
                2%nat := {["file_id" := Some "c"]}]} ∅ ∅ ∅) 2%nat);
    reflexivity.
Defined.

(** *** The validators *)

Lemma regex_dead_not_nullable r : regex_dead r = true → Re.nullable r = false.
Proof.
  induction r as [| |p|a IHa b IHb|a IHa b IHb|a IHa]; simpl; try done.
  - intros [H|H]%orb_true_iff; [rewrite (IHa H)|rewrite (IHb H)];
      [done|apply andb_false_r].
  - intros [Ha Hb]%andb_true_iff. by rewrite (IHa Ha), (IHb Hb).
Qed.

Lemma regex_dead_deriv c r : regex_dead r = true → regex_dead (Re.deriv c r) = true.
Proof.
  induction r as [| |p|a IHa b IHb|a IHa b IHb|a IHa]; simpl; try done.
  - intros [H|H]%orb_true_iff.
    + rewrite (regex_dead_not_nullable a H). simpl. by rewrite (IHa H).
    + destruct (Re.nullable a); simpl; rewrite ?H, ?(IHb H), ?orb_true_r; done.
  - intros [Ha Hb]%andb_true_iff. by rewrite (IHa Ha), (IHb Hb).
Qed.

Lemma fullmatch_dead s : ∀ r, regex_dead r = true → Re.fullmatch r s = false.
Proof.
  induction s as [|c s IH]; intros r Hr; simpl.
  - by apply regex_dead_not_nullable.
  - apply IH. by apply regex_dead_deriv.
Qed.

(** One more character of the text under the pattern. *)
Ltac next_char s c :=
  destruct s as [|c s]; [intros H; cbn in H; discriminate H|]; cbn [Re.fullmatch].

(** Case split on that character against those the pattern allows. *)
Ltac must_be s :=
  cbn -[Ascii.eqb];
  repeat match goal with
  | |- context [Ascii.eqb ?a ?b] =>
      first [ is_var b; destruct (Ascii.eqb_spec a b) as [<-|?]
            | let v := eval vm_compute in (Ascii.eqb a b) in
              change (Ascii.eqb a b) with v ];
      cbn -[Ascii.eqb]
  end;
  try (intros Hdead; rewrite fullmatch_dead in Hdead by reflexivity; discriminate).

(** Whatever the pattern of [is_valid_url] matches starts with one of the
    two schemes. *)
Lemma url_pattern_scheme s :
  Re.fullmatch url_pattern s = true →
  Py.startswith "http://" s = true ∨ Py.startswith "https://" s = true.
Proof.
  unfold Py.startswith, url_pattern.
  next_char s c1. must_be s.
  next_char s c2. must_be s.
  next_char s c3. must_be s.
  next_char s c4. must_be s.
  next_char s c5. must_be s.
  - next_char s c6. must_be s.
    next_char s c7. must_be s.
    next_char s c8. must_be s.
    intros _. right. by destruct s.
  - next_char s c6. must_be s.
    next_char s c7. must_be s.
    intros _. left. by destruct s.
Qed.

Lemma prefix_take p : ∀ k s,
  String.prefix p (Py.take k s) = true → String.prefix p s = true.
Proof.
  induction p as [|a p IH]; intros k s; [by destruct s|].
  destruct k as [|k], s as [|c s]; simpl; try done.
  destruct (ascii_dec a c); [apply IH|done].
Qed.

Lemma is_valid_url_scheme url :
  is_valid_url url = true →
  Py.startswith "http://" (Py.strip url) = true
  ∨ Py.startswith "https://" (Py.strip url) = true.
Proof.
  unfold is_valid_url, Re.match_anchored, Re.chop_newline.
  destruct (negb (Py.nonempty url)); [done|].
  intros [H|H]%orb_true_iff; [by apply url_pattern_scheme|].
  destruct (String.eqb _ _); [|done].
  apply url_pattern_scheme in H. unfold Py.startswith in *.
  destruct H as [H|H]; [left|right]; by apply prefix_take in H.
Qed.

(** An administrator's button [admin:confirm_poster] runs [confirm_poster]. *)
Lemma handle_admin_button_confirm cfg o uid w :
  uid ∈ admins (get_admins cfg (w_bot w)) →
  handle_admin_button cfg o uid "confirm_poster" w
  = confirm_poster (set_bot (get_admins cfg (w_bot w)) w).
Proof.
  intros Hin. unfold handle_admin_button.
  by rewrite bool_decide_eq_true_2.
Qed.

(** C6.  At the confirmation of a draft with a photo: a caption longer
    than 1024 characters is refused as such, and a caption within the limit
    with a non-empty ticket link that [is_valid_url] refuses is refused for
    the link; both leave the user data, and so the draft, as they were.
    Otherwise the poster is published and the draft removed.  A caption of
    1025 characters is refused and one of 1024 accepted; the link ftp://x is
    refused and https://x.com/a accepted, and every accepted link starts,
    once stripped, with http:// or https://. *)
Theorem confirm_poster_validates w d file_id :
  get (w_user w) "poster_draft" = VDraft d →
  d_file_id d = Some file_id → Py.nonempty file_id = true →
  let caption := default "" (d_caption d) in
  let link := default "" (d_ticket_url d) in
  (1024 < Py.len caption →
     confirm_poster w = (w, [DraftCaptionTooLong])
     ∧ get (w_user (fst (confirm_poster w))) "poster_draft" = VDraft d)
  ∧ (Py.len caption ≤ 1024 → ptruthy (d_ticket_url d) = true →
     is_valid_url link = false →
     confirm_poster w = (w, [DraftBadLink])
     ∧ get (w_user (fst (confirm_poster w))) "poster_draft" = VDraft d)
  ∧ (Py.len caption ≤ 1024 →
     ptruthy (d_ticket_url d) = false ∨ is_valid_url link = true →
     ∃ l, objects (w_bot w) !! l = None
          ∧ snd (confirm_poster w)
            = [PosterPublished l (Z.of_nat (length (all_posters (w_bot w))) + 1)]
          ∧ w_user (fst (confirm_poster w)) = delete "poster_draft" (w_user w)
          ∧ all_posters (w_bot (fst (confirm_poster w)))
            = (all_posters (w_bot w) ++ [l])%list
          ∧ poster (w_bot (fst (confirm_poster w))) = Some l
          ∧ objects (w_bot (fst (confirm_poster w))) !! l
            = Some (<["ticket_url" := d_ticket_url d]>
                      (<["caption" := Some caption]> {["file_id" := Some file_id]})))
  ∧ (∀ c, is_valid_caption c = true ↔ Py.len c ≤ 1024)
  ∧ is_valid_caption (repeat_char "a" 1025) = false
  ∧ is_valid_caption (repeat_char "a" 1024) = true
  ∧ is_valid_url "ftp://x" = false
  ∧ is_valid_url "https://x.com/a" = true
  ∧ (∀ url, is_valid_url url = true →
       Py.startswith "http://" (Py.strip url) = true
       ∨ Py.startswith "https://" (Py.strip url) = true).
Proof.
  intros Hd Hf Hne caption link.
  assert (Hcap : ∀ c, is_valid_caption c = true ↔ Py.len c ≤ 1024).
  { intros c. unfold is_valid_caption. apply Z.leb_le. }
  assert (Hrun : confirm_poster w
    = if negb (is_valid_caption caption) then (w, [DraftCaptionTooLong])
      else if negb (negb (ptruthy (d_ticket_url d)) || is_valid_url link)
      then (w, [DraftBadLink])
      else
        let b := w_bot w in
        let l := fresh (dom (objects b)) in
        let p : pdict := <["ticket_url" := d_ticket_url d]>
                         (<["caption" := Some caption]> {["file_id" := Some file_id]}) in
        let b1 := set_all_posters (all_posters b ++ [l])
                    (set_poster (Some l) (set_objects (<[l := p]> (objects b)) b)) in
        (World (delete "poster_draft" (w_user w)) b1 (w_db w),
         [PosterPublished l (Z.of_nat (length (all_posters b1)))])).
  { unfold confirm_poster. by rewrite Hd, Hf, Hne. }
  split; [|split; [|split]].
  - intros Hlong.
    assert (is_valid_caption caption = false) as Hbad.
    { apply not_true_is_false. rewrite Hcap. lia. }
    rewrite Hrun, Hbad. done.
  - intros Hlen Htr Hbad. apply Hcap in Hlen.
    rewrite Hrun, Hlen, Htr, Hbad. done.
  - intros Hlen Hok. apply Hcap in Hlen.
    assert (negb (ptruthy (d_ticket_url d)) || is_valid_url link = true) as Hlink.
    { destruct Hok as [->| ->]; [done|apply orb_true_r]. }
    rewrite Hrun, Hlen, Hlink. cbn [negb]. cbv zeta.
    exists (fresh (dom (objects (w_bot w)))).
    split; [apply not_elem_of_dom, is_fresh|].
    split.
    { simpl. rewrite length_app. simpl. do 3 f_equal. lia. }
    split; [done|]. split; [done|]. split; [done|].
    simpl. by rewrite lookup_insert_eq.
  - split; [done|].
    split; [by vm_compute|]. split; [by vm_compute|].
    split; [by vm_compute|]. split; [by vm_compute|].
    apply is_valid_url_scheme.
Qed.

Lemma confirm_poster_validates_witness :
  confirm_poster
    (World {["poster_draft" :=
               VDraft (Draft "confirm" (Some "photo1")
                         (Some (repeat_char "a" 1025)) None)]}
       empty_bot None)
  = (World {["poster_draft" :=
               VDraft (Draft "confirm" (Some "photo1")
                         (Some (repeat_char "a" 1025)) None)]}
       empty_bot None, [DraftCaptionTooLong]).
Proof.
  apply (confirm_poster_validates
           (World {["poster_draft" :=
                      VDraft (Draft "confirm" (Some "photo1")
                                (Some (repeat_char "a" 1025)) None)]}
              empty_bot None)
           (Draft "confirm" (Some "photo1") (Some (repeat_char "a" 1025)) None)
           "photo1"); [reflexivity..|].
  vm_compute. reflexivity.
Defined.

(** *** The weekly re-engagement *)

(** One turn of the loop on a dictionary whose two keys hold what the code
    writes there: the counter becomes 0 after an attended week and one more
    otherwise, and a message goes out when the new counter is above 2. *)
Lemma reengage_user_run prev_key uid u :
  attendance_well_typed u →
  reengage_user prev_key uid u
  = Some (<["missed_in_row" :=
             VInt (if attended prev_key u then 0 else misses u + 1)]> u,
          if attended prev_key u then []
          else if misses u + 1 >? 2 then [Reengage uid] else []).
Proof.
  intros [[Hm|[n Hm]] [Ha|[s Ha]]];
    unfold reengage_user, attended, misses; rewrite Hm, Ha; simpl;
    try done; by destruct (bool_decide (prev_key ∈ s)).
Qed.

Lemma reengage_count_app uid l1 l2 :
  reengage_count uid (l1 ++ l2) = (reengage_count uid l1 + reengage_count uid l2)%nat.
Proof. unfold reengage_count. by rewrite filter_app, length_app. Qed.

Lemma reengage_count_other uid uid' (c : bool) :
  uid ≠ uid' → reengage_count uid (if c then [Reengage uid'] else []) = 0%nat.
Proof.
  intros Hne. destruct c; [|done].
  unfold reengage_count. rewrite filter_cons_False, filter_nil; [done|].
  intros [= ->]. done.
Qed.

Lemma reengage_count_self uid (c : bool) :
  reengage_count uid (if c then [Reengage uid] else []) = if c then 1%nat else 0%nat.
Proof.
  destruct c; [|done].
  unfold reengage_count. by rewrite filter_cons_True, filter_nil.
Qed.

(** The messages of one turn, counted for a user. *)
Lemma reengage_user_count prev_key uid u uid' :
  reengage_count uid'
    (if attended prev_key u then []
     else if misses u + 1 >? 2 then [Reengage uid] else [])
  = if bool_decide (uid' = uid)
    then (if attended prev_key u then 0 else if misses u + 1 >? 2 then 1 else 0)%nat
    else 0%nat.
Proof.
  destruct (attended prev_key u); [by case_bool_decide|].
  case_bool_decide as Heq.
  - subst. apply reengage_count_self.
  - by apply reengage_count_other.
Qed.

(** One turn of the loop on a [dict]: the user's dictionary is read, or
    made, and written back. *)
Lemma reengage_all_turn prev_key a rest store :
  attendance_well_typed (default ∅ (store !! a)) →
  let u := default ∅ (store !! a) in
  let u' := <["missed_in_row" :=
               VInt (if attended prev_key u then 0 else misses u + 1)]> u in
  reengage_all prev_key (a :: rest) (Dict store)
  = let '(m', sent', st) := reengage_all prev_key rest (Dict (<[a := u']> store)) in
    (m', ((if attended prev_key u then []
           else if misses u + 1 >? 2 then [Reengage a] else []) ++ sent')%list, st).
Proof.
  intros Hwt u u'. cbn [reengage_all setdefault].
  destruct (store !! a) as [v|] eqn:Hv; cbn [default] in *.
  - subst u. rewrite (reengage_user_run prev_key a v Hwt). done.
  - subst u. rewrite (reengage_user_run prev_key a ∅ Hwt). cbn [setitem].
    by rewrite insert_insert_eq.
Qed.

(** The loop itself is the one the specification describes.  Run on a
    [dict], over a list of distinct users with well-typed dictionaries, it
    returns; it leaves the others' dictionaries alone and gives each listed
    user one turn: the counter is 0 after an attended week and one more
    otherwise, and one message goes out exactly when the new counter is
    above 2. *)
Lemma reengage_all_run prev_key uids :
  NoDup uids → ∀ store,
  (∀ uid, uid ∈ uids → attendance_well_typed (default ∅ (store !! uid))) →
  ∃ store' sent,
    reengage_all prev_key uids (Dict store) = (Dict store', sent, Returned)
    ∧ (∀ uid, uid ∉ uids →
         store' !! uid = store !! uid ∧ reengage_count uid sent = 0%nat)
    ∧ (∀ uid, uid ∈ uids →
         let u := default ∅ (store !! uid) in
         store' !! uid
         = Some (<["missed_in_row" :=
                    VInt (if attended prev_key u then 0 else misses u + 1)]> u)
         ∧ reengage_count uid sent
           = (if attended prev_key u then 0
              else if misses u + 1 >? 2 then 1 else 0)%nat).
Proof.
  induction 1 as [|a rest Hnotin Hnd IH]; intros store Hwt.
  - exists store, []. split; [done|]. split; [done|].
    intros uid Hin. by apply elem_of_nil in Hin.
  - rewrite (reengage_all_turn prev_key a rest store
               (Hwt a (list_elem_of_here a rest))). cbv zeta.
    set (u := default ∅ (store !! a)).
    set (u' := <["missed_in_row" := _]> u).
    destruct (IH (<[a := u']> store)) as (store' & sent' & Hrun & Hout & Hin).
    { intros uid Huid. rewrite lookup_insert_ne by (intros ->; done).
      apply Hwt. by apply list_elem_of_further. }
    rewrite Hrun. eexists _, _. split; [done|]. split.
    + intros uid Huid. apply not_elem_of_cons in Huid as [Hne Hrest].
      destruct (Hout uid Hrest) as [Hs Hc].
      rewrite Hs, lookup_insert_ne by done. split; [done|].
      rewrite reengage_count_app, Hc, reengage_user_count.
      by rewrite bool_decide_eq_false_2.
    + intros uid Huid. cbv zeta.
      rewrite reengage_count_app, reengage_user_count.
      apply elem_of_cons in Huid as [->|Hrest].
      * destruct (Hout a Hnotin) as [Hs Hc].
        rewrite Hs, Hc, lookup_insert_eq, bool_decide_eq_true_2 by done.
        split; [done|apply Nat.add_0_r].
      * assert (uid ≠ a) as Hne by (intros ->; done).
        destruct (Hin uid Hrest) as [Hs Hc]. cbv zeta in Hs, Hc.
        rewrite lookup_insert_ne in Hs, Hc by done.
        rewrite Hs, Hc, bool_decide_eq_false_2 by done. done.
Qed.

(** C8.  The weekly pass asks [application.user_data] for [setdefault],
    which that read-only view does not have: with a known user the pass
    ends in the exception at the first turn of its loop, before any counter
    is read or written and before any message, and without a known user it
    returns having done nothing.  So for a known user with two misses who
    was absent again the pass sends no message and leaves the counter at
    2. *)
Theorem reengage_pass_raises prev_key known store :
  (known ≠ ∅ →
   finalize_previous_week_and_reengage prev_key known store = (store, [], Raised))
  ∧ (known = ∅ →
     finalize_previous_week_and_reengage prev_key known store = (store, [], Returned))
  ∧ finalize_previous_week_and_reengage "2024-W10" {[7]}
      {[7 := {["missed_in_row" := VInt 2]}]}
    = ({[7 := {["missed_in_row" := VInt 2]}]}, [], Raised).
Proof.
  split; [|split].
  - intros Hne. unfold finalize_previous_week_and_reengage.
    destruct (elements known) as [|a rest] eqn:He; [|done].
    apply elements_empty_inv in He. by apply leibniz_equiv in He.
  - intros ->. unfold finalize_previous_week_and_reengage.
    by rewrite elements_empty.
  - unfold finalize_previous_week_and_reengage.
    by rewrite elements_singleton.
Qed.

(** *** Linking a VK profile *)

(** In the linking mode a text that is not empty reaches the VK branch. *)
Lemma handle_text_vk_branch cfg o uid username text w :
  vk_linking_mode cfg w → Py.nonempty text = true →
  handle_text cfg o uid username text w
  = (handle_vk_input cfg o uid text w, Returned).
Proof.
  intros (Hvk & Haw & Hreg & Hchk & Htk & Hbt & Hdr) Hne.
  unfold handle_text. rewrite Hne, Hreg, Hchk, Htk, Hbt, Hvk, Haw. simpl.
  destruct (get (w_user w) "poster_draft") as [| | | |d|]; simpl in Hdr;
    try discriminate; by rewrite ?Hdr.
Qed.



(** *** A bad handle and the linking mode *)




(** *** An accepted VK handle *)

(** A text made of characters of a class that excludes U+0000 can be
    stored. *)
Lemma all_chars_text_ok (p : ascii → bool) s :
  p NUL = false → Py.all_chars p s = true → text_ok (Some s) = true.
Proof.
  intros Hp. unfold text_ok. induction s as [|c r IH]; [done|].
  cbn [Py.all_chars mem_char]. intros [Hc Hr]%andb_true_iff.
  rewrite negb_orb. rewrite (IH Hr), andb_true_r.
  destruct (Ascii.eqb_spec NUL c) as [<-|]; [by rewrite Hp in Hc|done].
Qed.

Lemma all_chars_remove_char (p : ascii → bool) c s :
  Py.all_chars p (Py.remove_char c s) = true →
  Py.all_chars (fun x => Ascii.eqb c x || p x) s = true.
Proof.
  induction s as [|d r IH]; [done|]. cbn [Py.remove_char Py.all_chars].
  destruct (Ascii.eqb c d); cbn [orb andb]; [exact IH|].
  cbn [Py.all_chars]. intros [-> Hr]%andb_true_iff. by apply IH.
Qed.

(** A handle in one of the three formats holds no U+0000. *)
Lemma vk_format_ok_text_ok h : vk_format_ok h = true → text_ok (Some h) = true.
Proof.
  unfold vk_format_ok.
  intros [[Hd | Hid]%orb_true_iff | Hnick]%orb_true_iff.
  - apply andb_true_iff in Hd as [_ Hd].
    by apply (all_chars_text_ok Py.isdigit_char).
  - apply andb_true_iff in Hid as [Hpre Hd].
    destruct h as [|c1 [|c2 r]]; try done.
    apply andb_true_iff in Hd as [_ Hd]. cbn [Py.drop] in Hd.
    apply (all_chars_text_ok Py.isdigit_char) in Hd; [|done].
    unfold text_ok in *. cbn [mem_char]. apply negb_true_iff in Hd. rewrite Hd.
    unfold Py.startswith in Hpre. cbn [Py.lower String.prefix] in Hpre.
    destruct (Ascii.eqb_spec NUL c1) as [<-|]; [done|].
    destruct (Ascii.eqb_spec NUL c2) as [<-|]; [|done].
    by destruct (ascii_dec "i" (Py.lower_char c1)).
  - apply andb_true_iff in Hnick as [_ [_ Hn]%andb_true_iff].
    apply all_chars_remove_char, all_chars_remove_char in Hn.
    by apply (all_chars_text_ok _ _ eq_refl) in Hn.
Qed.

(** A handle in one of the three formats is stored, stripped, in the user's
    dictionary and the reply says whether an earlier one was replaced,
    whether or not there is a pool and whether or not the UPDATE succeeds.
    Without a pool, or when the UPDATE raises, nothing else changes: the
    shared data and the table stay as they are.  With a pool whose UPDATE
    succeeds, the cache of VK ids maps the user to the handle and nothing
    else changes in the shared data; [set_vk_id] updates the user's row if
    there is one and no other row, and loading the user again gives the
    same handle back.  Without a row the UPDATE matches nothing and the
    table stays as it is.  An accepted handle holds no U+0000, so the
    server takes it. *)
Theorem vk_handle_is_linked cfg o uid username text w :
  vk_linking_mode cfg w → Py.nonempty text = true →
  Py.nonempty (Py.strip text) = true → vk_format_ok (Py.strip text) = true →
  let h := Py.strip text in
  let r := handle_text cfg o uid username text w in
  let w' := fst (fst r) in
  r = (w', [VkLinked (truthy (get (w_user w) "vk_id"))], Returned)
  ∧ w_user w' = <["vk_id" := VStr h]> (<["awaiting_vk" := VBool false]> (w_user w))
  ∧ text_ok (Some h) = true
  ∧ (w_db w = None ∨ upsert_raises o = true →
     w_bot w' = w_bot w ∧ w_db w' = w_db w)
  ∧ (∀ t, w_db w = Some t → upsert_raises o = false →
     w_bot w' = set_user_vk_cache (<[uid := h]> (user_vk_cache (w_bot w))) (w_bot w)
     ∧ user_vk_cache (w_bot w') !! uid = Some h
     ∧ ∃ t', w_db w' = Some t'
         ∧ (∀ k, k ≠ uid → t' !! k = t !! k)
         ∧ match t !! uid with
           | Some old =>
               t' !! uid = Some (Row (r_name old) (r_gender old) (r_age old)
                                   (Some h) (r_username old))
               ∧ (get_user_raises o = false →
                  get (load_user_data_from_db o uid (w_db w') (w_user w')) "vk_id"
                  = VStr h)
           | None => t' = t
           end).
Proof.
  intros Hmode Hne Hs Hfmt h r w'. subst h r w'.
  rewrite (handle_text_vk_branch _ _ _ _ _ _ Hmode Hne).
  cbn [fst snd]. unfold handle_vk_input.
  rewrite Hs, Hfmt. cbn [negb].
  assert (Hrel : truthy (get (<["awaiting_vk" := VBool false]> (w_user w)) "vk_id")
                 = truthy (get (w_user w) "vk_id")).
  { unfold get. by rewrite lookup_insert_ne. }
  rewrite Hrel.
  split; [by destruct (w_db w); [destruct (upsert_raises o)|]|].
  split; [by destruct (w_db w); [destruct (upsert_raises o)|]|].
  split; [by apply vk_format_ok_text_ok|].
  split.
  { intros [Hdb | Hup].
    - by rewrite Hdb.
    - rewrite Hup. by destruct (w_db w). }
  intros t Hdb Hup. rewrite Hdb, Hup. cbn [fst snd w_user w_bot w_db].
  split; [done|].
  split; [cbn; by rewrite lookup_insert_eq|].
  exists (set_vk_id t uid (Py.strip text)). split; [done|]. split.
  { intros k Hk. unfold set_vk_id. by rewrite lookup_alter_ne. }
  unfold set_vk_id. destruct (t !! uid) as [old|] eqn:Hrow.
  - split; [by rewrite lookup_alter_eq, Hrow|].
    intros Hget. unfold load_user_data_from_db, get_user.
    rewrite Hget, lookup_alter_eq, Hrow. cbn [fmap option_fmap option_map r_vk_id r_name r_gender r_age of_text truthy].
    rewrite Hs. unfold get.
    rewrite lookup_insert_ne by done. by rewrite lookup_insert_eq.
  - apply map_eq. intros k. destruct (decide (k = uid)) as [->|Hk].
    + by rewrite lookup_alter_eq, Hrow.
    + by rewrite lookup_alter_ne.
Qed.

Lemma vk_handle_is_linked_witness :
  w_user (fst (fst (handle_text vk_on no_failures 7 None "durov"
                      (World {["awaiting_vk" := VBool true]} empty_bot
                         (Some {[7 := Row (Some "Ann") None None None None]})))))
  = <["vk_id" := VStr "durov"]>
      (<["awaiting_vk" := VBool false]> {["awaiting_vk" := VBool true]}).
Proof.
  refine (proj1 (proj2 (vk_handle_is_linked vk_on no_failures 7 None "durov"
           (World {["awaiting_vk" := VBool true]} empty_bot
              (Some {[7 := Row (Some "Ann") None None None None]}))
           _ _ _ _))).
  - repeat split; reflexivity.
  - reflexivity.
  - reflexivity.
  - vm_compute. reflexivity.
Defined.

(** *** The administrator's lookup mode *)

(** A lookup changes no key but the flag, and it touches neither the
    shared data nor the table. *)
Lemma handle_lookup_frame cfg o text w :
  let w' := fst (handle_lookup cfg o text w) in
  (w' = w ∨ w' = set_user (<["awaiting_username_check" := VBool false]> (w_user w)) w).
Proof.
  unfold handle_lookup. cbv zeta. unfold is_user_subscribed.
  destruct w as [u b d]. cbn [w_user w_bot w_db set_user].
  repeat case_match; cbn [fst set_user w_user w_bot w_db];
    rewrite ?insert_insert_eq; auto.
Qed.

(** A lookup always answers. *)
Lemma handle_lookup_answers cfg o text w : snd (handle_lookup cfg o text w) ≠ [].
Proof.
  unfold handle_lookup. cbv zeta. unfold is_user_subscribed.
  repeat case_match; cbn [snd]; done.
Qed.

(** In the continuous mode a lookup changes nothing. *)
Lemma handle_lookup_continuous cfg o text w :
  continuous w = true → fst (handle_lookup cfg o text w) = w.
Proof.
  unfold continuous. intros Hc.
  unfold handle_lookup. cbv zeta. rewrite Hc. unfold is_user_subscribed.
  destruct w as [u b d]. cbn [w_user w_bot w_db set_user] in *.
  repeat case_match; done.
Qed.

(** In the single-shot mode the flag stays set only after the lookup of
    the id 0 whose answer is delivered. *)
Lemma handle_lookup_single_shot cfg o text w :
  awaiting_lookup w = true → continuous w = false →
  awaiting_lookup (fst (handle_lookup cfg o text w)) = true
  ↔ Py.isdigit (Py.strip text) = true ∧ Py.int (Py.strip text) = Some 0
    ∧ reply_raises o = false.
Proof.
  unfold awaiting_lookup, continuous. intros Haw Hc. split.
  - unfold handle_lookup. cbv zeta. rewrite Hc. unfold is_user_subscribed.
    destruct (Py.isdigit (Py.strip text)).
    + destruct (Py.int (Py.strip text)) as [n|];
        [|cbn; unfold get; rewrite lookup_insert_eq; done].
      destruct (n =? 0) eqn:Hn.
      * apply Z.eqb_eq in Hn as ->.
        destruct (reply_raises o); [|done].
        cbn; unfold get; rewrite lookup_insert_eq; done.
      * destruct (reply_raises o);
          cbn; unfold get; rewrite lookup_insert_eq; done.
    + repeat case_match;
        cbn; unfold get; rewrite lookup_insert_eq; done.
  - intros (Hd & Hi & Hr). unfold handle_lookup. cbv zeta.
    rewrite Hc, Hd, Hi, Hr. cbn. done.
Qed.

(** In the lookup mode a text is always answered and the handler returns.
    In the continuous mode the lookup changes nothing at all, whatever the
    text and whatever fails, so the next text is a lookup again.  In the
    single-shot mode the flag is cleared, and nothing else changes, except
    when the text is a number equal to 0 and its answer is delivered: then
    the flag stays set. *)
Theorem lookup_keeps_flag_in_continuous_mode cfg o uid username text w :
  truthy (get (w_user w) "registration_step") = false →
  awaiting_lookup w = true → Py.nonempty text = true →
  let r := handle_text cfg o uid username text w in
  let w' := fst (fst r) in
  snd r = Returned
  ∧ snd (fst r) ≠ []
  ∧ (continuous w = true → w' = w)
  ∧ (continuous w = false →
     (w' = w ∨ w' = set_user (<["awaiting_username_check" := VBool false]> (w_user w)) w)
     ∧ (awaiting_lookup w' = true
        ↔ Py.isdigit (Py.strip text) = true ∧ Py.int (Py.strip text) = Some 0
          ∧ reply_raises o = false)).
Proof.
  intros Hreg Haw Hne r w'. subst r w'.
  rewrite (handle_text_lookup _ _ _ _ _ _ Hreg Haw Hne). cbn [fst snd].
  split; [done|].
  split; [apply handle_lookup_answers|].
  split; [apply handle_lookup_continuous|].
  intros Hc. split; [apply handle_lookup_frame|].
  by apply handle_lookup_single_shot.
Qed.

Lemma lookup_keeps_flag_in_continuous_mode_witness :
  fst (fst (handle_text vk_on no_failures 7 None "@someone"
              (offline {["awaiting_username_check" := VBool true;
                         "continuous_check_mode" := VBool true]})))
  = offline {["awaiting_username_check" := VBool true;
              "continuous_check_mode" := VBool true]}.
Proof.
  refine (proj1 (proj2 (proj2 (lookup_keeps_flag_in_continuous_mode
            vk_on no_failures 7 None "@someone"
            (offline {["awaiting_username_check" := VBool true;
                       "continuous_check_mode" := VBool true]}) _ _ _))) _);
    reflexivity.
Defined.

(** *** What ends the lookup mode *)

(** Looking up a key behind writes to other keys. *)
Ltac skip_writes :=
  repeat first [ rewrite lookup_insert_ne by done
               | rewrite lookup_delete_ne by done ].

Lemma show_menu_caught_user cfg o uid w k :
  k ≠ "current_poster_index" → k ≠ "name" → k ≠ "gender" → k ≠ "age" →
  k ≠ "vk_id" → k ≠ "registered" →
  w_user (fst (show_menu_caught cfg o uid w)) !! k = w_user w !! k.
Proof.
  intros Hk Hn Hg Ha Hv Hr. unfold show_menu_caught.
  pose proof (show_main_menu_user cfg o uid w k Hk) as Hshow.
  rewrite load_other_keys in Hshow by done.
  by destruct (show_main_menu cfg o uid w) as [[w' r] []].
Qed.

Lemma point_to_newest_other_keys u b k :
  k ≠ "current_poster_index" → point_to_newest u b !! k = u !! k.
Proof.
  intros Hk. unfold point_to_newest.
  destruct (all_posters b); [done|]. by rewrite lookup_insert_ne.
Qed.

Lemma confirm_poster_other_keys w k :
  k ≠ "poster_draft" → w_user (fst (confirm_poster w)) !! k = w_user w !! k.
Proof.
  intros Hk. unfold confirm_poster.
  repeat case_match; cbn [fst w_user]; rewrite ?lookup_delete_ne by done; done.
Qed.





(** [get_admins] and [admin_panel] never take an administrator away. *)
Lemma get_admins_keeps cfg b x : x ∈ admins b → x ∈ admins (get_admins cfg b).
Proof. unfold get_admins. cbn. set_solver. Qed.

Lemma admin_panel_keeps cfg uid b x :
  x ∈ admins b → x ∈ admins (fst (admin_panel cfg uid b)).
Proof.
  intros Hx. apply (get_admins_keeps cfg) in Hx. unfold admin_panel.
  destruct (bool_decide (admins (get_admins cfg b) = ∅)); [|by case_bool_decide].
  case_bool_decide; cbn; by apply elem_of_union_r.
Qed.











(** *** The bulk lookup and what ends it *)




(** *** The table [users] *)

(** A text can be stored when U+0000 is at none of its positions. *)
Lemma text_ok_get s : text_ok (Some s) = true ↔ ∀ n, String.get n s ≠ Some NUL.
Proof.
  unfold text_ok. rewrite negb_true_iff. induction s as [|c r IH].
  - split; [by intros _ []|done].
  - cbn [mem_char]. rewrite orb_false_iff, IH, Ascii.eqb_neq. split.
    + intros [Hc Hr] [|n]; cbn [String.get]; [|apply Hr].
      intros [= Heq]. by apply Hc.
    + intros H. split.
      * intros Heq. apply (H 0%nat). cbn [String.get]. by rewrite Heq.
      * intros n. apply (H (S n)).
Qed.

(** What [upsert_accepted] asks of the values. *)
Lemma upsert_accepted_spec name gender age vk_id username :
  upsert_accepted name gender age vk_id username = true
  ↔ text_ok name = true ∧ text_ok vk_id = true ∧ text_ok username = true
    ∧ (gender = None ∨ gender = Some "male" ∨ gender = Some "female")
    ∧ (∀ n, age = Some n → 14 ≤ n ≤ 100).
Proof.
  unfold upsert_accepted. rewrite !andb_true_iff. split.
  - intros [[[[[Hn Hgt] Hv] Hu] Hg] Ha].
    split; [done|]. split; [done|]. split; [done|]. split.
    + destruct gender as [g|]; [|by left]. right. cbn in Hg.
      apply orb_true_iff in Hg as [->%String.eqb_eq | ->%String.eqb_eq]; auto.
    + intros n ->. cbn in Ha. lia.
  - intros (Hn & Hv & Hu & Hg & Ha).
    split; [split; [split; [split; [split|]|]|]|]; try done.
    + by destruct Hg as [-> | [-> | ->]].
    + by destruct Hg as [-> | [-> | ->]].
    + destruct age as [a|]; [|done]. cbn. specialize (Ha a eq_refl). lia.
Qed.

(** [upsert_user] raises, and writes nothing, when a text it is given
    holds U+0000, when the gender is neither [male] nor [female], or when
    the age is outside 14..100.  Otherwise it writes the row of [tg_id] and
    no other: each column takes the value given, or keeps the stored one
    where the value given is NULL, so no stored column is ever set back to
    NULL.  Running the same upsert again, or an upsert that gives no value
    at all, changes nothing more. *)
Theorem upsert_user_merges t tg_id name gender age vk_id username :
  let old := t !! tg_id in
  (upsert_accepted name gender age vk_id username = true
   ↔ text_ok name = true ∧ text_ok vk_id = true ∧ text_ok username = true
     ∧ (gender = None ∨ gender = Some "male" ∨ gender = Some "female")
     ∧ (∀ n, age = Some n → 14 ≤ n ≤ 100))
  ∧ (∀ s, text_ok (Some s) = true ↔ ∀ n, String.get n s ≠ Some NUL)
  ∧ text_ok None = true
  ∧ if upsert_accepted name gender age vk_id username then
      ∃ t' r,
        upsert_user t tg_id name gender age vk_id username = Some t'
        ∧ (∀ k, k ≠ tg_id → get_user t' k = get_user t k)
        ∧ get_user t' tg_id = Some r
        ∧ r = Row (coalesce name (old ≫= r_name)) (coalesce gender (old ≫= r_gender))
                  (coalesce age (old ≫= r_age)) (coalesce vk_id (old ≫= r_vk_id))
                  (coalesce username (old ≫= r_username))
        ∧ (∀ o, old = Some o →
             (is_Some (r_name o) → is_Some (r_name r))
             ∧ (is_Some (r_gender o) → is_Some (r_gender r))
             ∧ (is_Some (r_age o) → is_Some (r_age r))
             ∧ (is_Some (r_vk_id o) → is_Some (r_vk_id r))
             ∧ (is_Some (r_username o) → is_Some (r_username r)))
        ∧ upsert_user t' tg_id name gender age vk_id username = Some t'
        ∧ upsert_user t' tg_id None None None None None = Some t'
    else upsert_user t tg_id name gender age vk_id username = None.
Proof.
  intros old. subst old.
  split; [apply upsert_accepted_spec|]. split; [apply text_ok_get|].
  split; [done|].
  unfold upsert_user, get_user.
  destruct (upsert_accepted name gender age vk_id username) eqn:Hcheck; [|done].
  set (r := match t !! tg_id with
            | Some old =>
                Row (coalesce name (r_name old)) (coalesce gender (r_gender old))
                    (coalesce age (r_age old)) (coalesce vk_id (r_vk_id old))
                    (coalesce username (r_username old))
            | None => Row name gender age vk_id username
            end).
  exists (<[tg_id := r]> t), r.
  split; [done|]. split.
  { intros k Hk. by rewrite lookup_insert_ne. }
  split; [by rewrite lookup_insert_eq|]. split.
  { subst r. by destruct (t !! tg_id) as [[]|];
      destruct name, gender, age, vk_id, username. }
  split.
  { intros o Ho. subst r. rewrite Ho. cbn.
    by destruct name, gender, age, vk_id, username. }
  rewrite lookup_insert_eq.
  change (upsert_accepted None None None None None) with true. cbn iota.
  rewrite insert_insert_eq. split.
  - do 2 f_equal. subst r. destruct (t !! tg_id) as [[]|]; cbn;
      by destruct name, gender, age, vk_id, username.
  - rewrite ?insert_insert_eq. do 2 f_equal. by destruct r.
Qed.

(** *** Registration from the first [/start] to the age *)

(** Reading a key of a dictionary written key by key. *)
Ltac read_key :=
  cbn [w_user w_bot w_db set_user set_bot]; unfold get;
  repeat first [ rewrite lookup_insert_eq
               | rewrite lookup_delete_eq
               | rewrite lookup_insert_ne by done
               | rewrite lookup_delete_ne by done ].








(** *** Broadcasts *)

Lemma count_reply_app r l1 l2 :
  count_reply r (l1 ++ l2) = (count_reply r l1 + count_reply r l2)%nat.
Proof. unfold count_reply. by rewrite filter_app, length_app. Qed.

(** Among the replies made of one message per element of a list without
    repetition, the message of [k] occurs once if [k] is listed and not at
    all otherwise. *)
Lemma count_reply_map (f : Z → reply) (l : list Z) k :
  (∀ x y, f x = f y → x = y) → NoDup l →
  count_reply (f k) (map f l) = if bool_decide (k ∈ l) then 1%nat else 0%nat.
Proof.
  intros Hinj. induction 1 as [|a l Hnotin Hnd IH].
  - rewrite bool_decide_eq_false_2; [done|]. by intros ?%elem_of_nil.
  - cbn [map]. unfold count_reply in *.
    destruct (decide (a = k)) as [->|Hne].
    + rewrite filter_cons_True by done. cbn [length]. rewrite IH.
      rewrite (bool_decide_eq_false_2 (k ∈ l)) by done.
      rewrite bool_decide_eq_true_2; [done|]. apply list_elem_of_here.
    + rewrite filter_cons_False by (intros ?%Hinj; done). rewrite IH.
      rewrite (bool_decide_ext (k ∈ a :: l) (k ∈ l)); [done|].
      rewrite elem_of_cons. split; [by intros [->|]|by right].
Qed.

Lemma count_reply_elements (f : Z → reply) (s : gset Z) k :
  (∀ x y, f x = f y → x = y) →
  count_reply (f k) (map f (elements s))
  = if bool_decide (k ∈ s) then 1%nat else 0%nat.
Proof.
  intros Hinj. rewrite (count_reply_map f _ k Hinj (NoDup_elements s)).
  by rewrite (bool_decide_ext _ _ (elem_of_elements s k)).
Qed.

(** The text an administrator sends after the button [broadcast_text] goes,
    as it is, to every known user exactly once and to nobody else; then the
    administrator gets the confirmation.  The flag is cleared, so the next
    text is not broadcast, and nothing else changes. *)
Theorem broadcast_text_reaches_each_known_user cfg o uid username text w :
  truthy (get (w_user w) "registration_step") = false →
  truthy (get (w_user w) "awaiting_username_check") = false →
  truthy (get (w_user w) "awaiting_ticket") = false →
  truthy (get (w_user w) "awaiting_broadcast_text") = true →
  Py.nonempty text = true →
  let r := handle_text cfg o uid username text w in
  let w' := fst (fst r) in
  let sent := snd (fst r) in
  snd r = Returned
  ∧ w' = set_user (<["awaiting_broadcast_text" := VBool false]> (w_user w)) w
  ∧ truthy (get (w_user w') "awaiting_broadcast_text") = false
  ∧ (∀ k, count_reply (BroadcastText k text) sent
          = if bool_decide (k ∈ known_users (w_bot w)) then 1%nat else 0%nat)
  ∧ (∀ k t, t ≠ text → count_reply (BroadcastText k t) sent = 0%nat)
  ∧ last sent = Some BroadcastTextDone
  ∧ length sent = S (size (known_users (w_bot w))).
Proof.
  intros Hreg Hchk Htk Hbt Hne r w' sent. subst sent w' r.
  unfold handle_text. rewrite Hne, Hreg, Hchk, Htk, Hbt. cbn [negb fst snd].
  split; [done|]. split; [done|]. split; [by read_key|]. split.
  { intros k. rewrite count_reply_app.
    rewrite (count_reply_elements (fun k => BroadcastText k text)) by congruence.
    unfold count_reply. rewrite filter_cons_False, filter_nil by done.
    cbn. lia. }
  split.
  { intros k t Ht. rewrite count_reply_app. unfold count_reply.
    rewrite filter_cons_False, filter_nil by done.
    cbn [length]. rewrite Nat.add_0_r.
    induction (elements (known_users (w_bot w))) as [|a l IH]; [done|].
    cbn [map]. rewrite filter_cons_False; [done|]. by intros [= _ ->]. }
  split; [by rewrite last_snoc|].
  rewrite length_app, length_map. cbn. unfold size, set_size. cbn. lia.
Qed.

Lemma broadcast_text_reaches_each_known_user_witness :
  count_reply (BroadcastText 5 "party tonight")
    (snd (fst (handle_text vk_on no_failures 1 None "party tonight"
                 (World {["awaiting_broadcast_text" := VBool true]}
                    (BotData None [] ∅ {[5]} ∅ ∅) None))))
  = 1%nat.
Proof.
  exact (proj1 (proj2 (proj2 (proj2
           (broadcast_text_reaches_each_known_user vk_on no_failures 1 None
              "party tonight"
              (World {["awaiting_broadcast_text" := VBool true]}
                 (BotData None [] ∅ {[5]} ∅ ∅) None)
              eq_refl eq_refl eq_refl eq_refl eq_refl)))) 5).
Defined.

(** [do_weekly_broadcast] sends nothing at all, not even the report, when
    no user is known or no poster is listed.  Otherwise the newest poster
    of the list, whichever poster is the current one, goes to every known
    user exactly once, no other poster is sent, and one report follows if
    the first administrator is configured. *)
Theorem weekly_broadcast_sends_newest_poster cfg b :
  let sent := do_weekly_broadcast cfg b in
  match last (all_posters b) with
  | None => sent = []
  | Some p =>
      if bool_decide (known_users b = ∅) then sent = []
      else
        (∀ k, count_reply (PosterTo k p) sent
              = if bool_decide (k ∈ known_users b) then 1%nat else 0%nat)
        ∧ (∀ k q, q ≠ p → count_reply (PosterTo k q) sent = 0%nat)
        ∧ count_reply BroadcastReport sent
          = (if (ADMIN_USER_ID cfg =? 0)%Z then 0%nat else 1%nat)
        ∧ length sent
          = (size (known_users b)
             + if (ADMIN_USER_ID cfg =? 0)%Z then 0 else 1)%nat
  end.
Proof.
  intros sent. subst sent. unfold do_weekly_broadcast, last_poster.
  destruct (last (all_posters b)) as [p|]; [|by case_bool_decide].
  case_bool_decide as Hknown; [done|].
  assert (Hother : ∀ (r : reply) (l : list Z),
            (∀ k, r ≠ PosterTo k p) →
            count_reply r (map (fun k => PosterTo k p) l) = 0%nat).
  { intros r l Hr. unfold count_reply. induction l as [|a l IH]; [done|].
    cbn [map]. rewrite filter_cons_False; [done|]. intros Heq. by apply (Hr a). }
  split; [|split; [|split]].
  - intros k. rewrite count_reply_app.
    rewrite (count_reply_elements (fun k => PosterTo k p)) by congruence.
    replace (count_reply (PosterTo k p) _) with 0%nat; [lia|].
    by destruct (ADMIN_USER_ID cfg =? 0).
  - intros k q Hq. rewrite count_reply_app, Hother by congruence.
    by destruct (ADMIN_USER_ID cfg =? 0).
  - rewrite count_reply_app, Hother by done.
    by destruct (ADMIN_USER_ID cfg =? 0).
  - rewrite length_app, length_map.
    by destruct (ADMIN_USER_ID cfg =? 0).
Qed.

(** *** The poster wizard from the first button to the publication *)







(** *** The ticket link of the current poster *)

(** The text an administrator sends after the button [set_ticket] becomes,
    stripped and without any validation, the ticket link of the current
    poster.  The dictionary of the current poster is changed in place, so
    the same poster seen through the list shows the new link; its other
    keys, the other dictionaries and the list stay.  When there is no
    current poster, or an empty one, a new dictionary holding only the
    link becomes the current poster. *)
Theorem ticket_link_is_written_in_place cfg o uid username text w :
  truthy (get (w_user w) "registration_step") = false →
  truthy (get (w_user w) "awaiting_username_check") = false →
  truthy (get (w_user w) "awaiting_ticket") = true →
  Py.nonempty text = true →
  let r := handle_text cfg o uid username text w in
  let w' := fst (fst r) in
  let b := w_bot w in
  let b' := w_bot w' in
  let link := Some (Py.strip text) in
  r = (w', [TicketLinkSaved], Returned)
  ∧ w_user w' = <["awaiting_ticket" := VBool false]> (w_user w)
  ∧ w_db w' = w_db w
  ∧ all_posters b' = all_posters b
  ∧ known_users b' = known_users b ∧ admins b' = admins b
  ∧ match poster b with
    | Some p =>
        if bool_decide (deref b p = ∅)
        then ∃ l, objects b !! l = None ∧ poster b' = Some l
                  ∧ objects b' = <[l := {["ticket_url" := link]}]> (objects b)
        else poster b' = Some p
             ∧ deref b' p !! "ticket_url" = Some link
             ∧ (∀ k, k ≠ "ticket_url" → deref b' p !! k = deref b p !! k)
             ∧ (∀ q, q ≠ p → objects b' !! q = objects b !! q)
             ∧ (∀ i, all_posters b !! i = Some p →
                  ∃ q, all_posters b' !! i = Some q
                       ∧ deref b' q !! "ticket_url" = Some link)
    | None => ∃ l, objects b !! l = None ∧ poster b' = Some l
                   ∧ objects b' = <[l := {["ticket_url" := link]}]> (objects b)
    end.
Proof.
  intros Hreg Hchk Htk Hne r w' b b' link. subst r w' b b' link.
  unfold handle_text. rewrite Hne, Hreg, Hchk, Htk. cbn [negb fst snd w_user w_bot w_db].
  split; [done|]. split; [done|]. split; [done|].
  unfold set_ticket_url.
  assert (Hfresh : objects (w_bot w) !! fresh (dom (objects (w_bot w))) = None)
    by apply not_elem_of_dom, is_fresh.
  destruct (poster (w_bot w)) as [p|] eqn:Hp.
  - case_bool_decide as Hempty.
    + split; [reflexivity|]. split; [reflexivity|]. split; [reflexivity|].
      exists (fresh (dom (objects (w_bot w)))).
      split; [exact Hfresh|split; reflexivity].
    + split; [reflexivity|]. split; [reflexivity|]. split; [reflexivity|].
      split; [exact Hp|]. split.
      { unfold deref at 1. cbn. rewrite lookup_insert_eq. cbn.
        by rewrite lookup_insert_eq. }
      split.
      { intros k Hk. unfold deref at 1. cbn. rewrite lookup_insert_eq. cbn.
        by rewrite lookup_insert_ne. }
      split.
      { intros q Hq. cbn. by rewrite lookup_insert_ne. }
      intros i Hi. exists p. split; [exact Hi|].
      unfold deref at 1. cbn. rewrite lookup_insert_eq. cbn.
        by rewrite lookup_insert_eq.
  - split; [reflexivity|]. split; [reflexivity|]. split; [reflexivity|].
    exists (fresh (dom (objects (w_bot w)))).
      split; [exact Hfresh|split; reflexivity].
Qed.

Lemma ticket_link_is_written_in_place_witness :
  w_user (fst (fst (handle_text vk_on no_failures 1 None " not a link "
                      (offline {["awaiting_ticket" := VBool true]}))))
  = <["awaiting_ticket" := VBool false]> {["awaiting_ticket" := VBool true]}.
Proof.
  exact (proj1 (proj2 (ticket_link_is_written_in_place vk_on no_failures 1 None
                         " not a link "
                         (offline {["awaiting_ticket" := VBool true]})
                         eq_refl eq_refl eq_refl eq_refl))).
Defined.

(** *** Deleting the current poster *)

(** [l.remove(x)] takes out the first element equal to [x] and nothing
    else. *)
Lemma remove_first_split {A} (f : A → bool) (l : list A) :
  existsb f l = true →
  ∃ l1 x l2, l = (l1 ++ x :: l2)%list ∧ f x = true
             ∧ (∀ y, y ∈ l1 → f y = false)
             ∧ remove_first f l = (l1 ++ l2)%list.
Proof.
  induction l as [|a l IH]; [done|]. cbn [existsb remove_first].
  destruct (f a) eqn:Hfa.
  - intros _. exists [], a, l. split; [done|]. split; [done|].
    split; [|done]. by intros y ?%elem_of_nil.
  - cbn [orb]. intros (l1 & x & l2 & -> & Hx & Hl1 & Hrm)%IH.
    exists (a :: l1), x, l2. split; [done|]. split; [done|]. split.
    + intros y [->|Hy]%elem_of_cons; [done|]. by apply Hl1.
    + by rewrite Hrm.
Qed.

(** The button [admin:delete_poster] always leaves the dictionaries of the
    posters alone.  Without a current poster, or with an empty one, it
    changes nothing but the current poster, which becomes absent.
    Otherwise the first poster of the list whose dictionary equals the
    current one is taken out of the list (nothing, if there is none), the
    rest keeps its order, and the last poster left becomes the current one,
    or none when the list is empty; the reply counts the posters left. *)
Theorem delete_current_poster_removes_one b :
  let b' := fst (delete_current_poster b) in
  let r := snd (delete_current_poster b) in
  objects b' = objects b ∧ known_users b' = known_users b ∧ admins b' = admins b
  ∧ match poster b with
    | Some p =>
        if bool_decide (deref b p = ∅)
        then r = [NoPosterToDelete] ∧ poster b' = None
             ∧ all_posters b' = all_posters b
        else
          r = [CurrentPosterDeleted (Z.of_nat (length (all_posters b')))]
          ∧ poster b' = last (all_posters b')
          ∧ if poster_in b p (all_posters b)
            then ∃ l1 q l2,
                   all_posters b = (l1 ++ q :: l2)%list
                   ∧ deref b q = deref b p
                   ∧ (∀ x, x ∈ l1 → deref b x ≠ deref b p)
                   ∧ all_posters b' = (l1 ++ l2)%list
            else all_posters b' = all_posters b
    | None => r = [NoPosterToDelete] ∧ poster b' = None
              ∧ all_posters b' = all_posters b
    end.
Proof.
  intros b' r. subst b' r. unfold delete_current_poster.
  destruct (poster b) as [p|]; [|done].
  case_bool_decide as Hempty; [done|].
  unfold poster_in.
  destruct (existsb _ (all_posters b)) eqn:Hin.
  - destruct (remove_first_split _ _ Hin) as (l1 & q & l2 & Hl & Hq & Hl1 & Hrm).
    cbn [all_posters set_all_posters set_poster]. rewrite Hrm.
    assert (Hrest : ∃ l1' q' l2', all_posters b = (l1' ++ q' :: l2')%list
                      ∧ deref b q' = deref b p
                      ∧ (∀ x, x ∈ l1' → deref b x ≠ deref b p)
                      ∧ (l1 ++ l2)%list = (l1' ++ l2')%list).
    { exists l1, q, l2. split; [done|]. split; [by apply bool_decide_eq_true in Hq|].
      split; [|done]. intros x Hx. specialize (Hl1 x Hx).
      by apply bool_decide_eq_false in Hl1. }
    destruct (l1 ++ l2)%list as [|a rest] eqn:Hlist; cbn; repeat split; try done.
  - cbn [all_posters set_all_posters set_poster].
    destruct (all_posters b) as [|a rest] eqn:Hlist; cbn; rewrite ?Hlist;
      repeat split; try done.
Qed.

(** *** Moving between posters *)









(** *** What the handlers never forget *)

Lemma bot_grows_refl b : bot_grows b b.
Proof. by split. Qed.

Lemma bot_grows_trans b1 b2 b3 : bot_grows b1 b2 → bot_grows b2 b3 → bot_grows b1 b3.
Proof. intros [??] [??]. split; set_solver. Qed.

Lemma db_grows_refl d : db_grows d d.
Proof. destruct d as [t|]; [|done]. by exists t. Qed.

Lemma db_grows_trans d1 d2 d3 : db_grows d1 d2 → db_grows d2 d3 → db_grows d1 d3.
Proof.
  destruct d1 as [t1|]; cbn.
  - intros (t2 & -> & H12). cbn. intros (t3 & -> & H23). exists t3. split; [done|set_solver].
  - by intros ->.
Qed.

Lemma never_forgets_refl w : never_forgets w w.
Proof. split; [apply bot_grows_refl|apply db_grows_refl]. Qed.

Lemma never_forgets_trans w1 w2 w3 :
  never_forgets w1 w2 → never_forgets w2 w3 → never_forgets w1 w3.
Proof.
  intros [??] [??]. split; [by eapply bot_grows_trans|by eapply db_grows_trans].
Qed.

Lemma get_admins_grows cfg b : bot_grows b (get_admins cfg b).
Proof. split; [done|]. unfold get_admins. cbn. set_solver. Qed.

Lemma admin_panel_grows cfg uid b : bot_grows b (fst (admin_panel cfg uid b)).
Proof.
  split.
  - unfold admin_panel. by repeat case_bool_decide.
  - intros x Hx. by apply admin_panel_keeps.
Qed.

Lemma try_db_upsert_grows o d tg_id name gender age vk_id username :
  db_grows d (try_db o d (fun t => upsert_user t tg_id name gender age vk_id username)).
Proof.
  destruct d as [t|]; [|done]. cbn. destruct (upsert_raises o); [by exists t|].
  unfold upsert_user. destruct (upsert_accepted _ _ _ _ _); [|by exists t].
  eexists. split; [done|]. rewrite dom_insert. set_solver.
Qed.

Lemma show_main_menu_grows cfg o uid w :
  never_forgets w (fst (fst (show_main_menu cfg o uid w))).
Proof.
  unfold show_main_menu.
  repeat case_match; cbn [fst w_bot w_db]; (split; [|apply db_grows_refl]);
    unfold bot_grows, get_admins; cbn; set_solver.
Qed.

Lemma show_menu_caught_grows cfg o uid w :
  never_forgets w (fst (show_menu_caught cfg o uid w)).
Proof.
  unfold show_menu_caught. pose proof (show_main_menu_grows cfg o uid w) as H.
  by destruct (show_main_menu cfg o uid w) as [[w' r] []].
Qed.

Lemma admin_panel_result_grows cfg uid b b' r :
  admin_panel cfg uid b = (b', r) → bot_grows b b'.
Proof. intros H. change b' with (fst (b', r)). rewrite <- H. apply admin_panel_grows. Qed.

Lemma delete_current_poster_grows b b' r :
  delete_current_poster b = (b', r) → bot_grows b b'.
Proof.
  unfold delete_current_poster. intros H.
  repeat case_match; simplify_eq; by split.
Qed.

Lemma delete_poster_button_grows arg b b' r :
  delete_poster_button arg b = (b', r) → bot_grows b b'.
Proof.
  unfold delete_poster_button. intros H.
  repeat case_match; simplify_eq; by split.
Qed.

Lemma set_ticket_url_grows url b : bot_grows b (set_ticket_url url b).
Proof. unfold set_ticket_url. repeat case_match; by split. Qed.

Lemma confirm_poster_grows w : never_forgets w (fst (confirm_poster w)).
Proof.
  unfold confirm_poster.
  repeat case_match; cbn [fst]; try apply never_forgets_refl.
  split; [by split|apply db_grows_refl].
Qed.

Lemma handle_admin_button_grows cfg o uid sub w :
  never_forgets w (fst (handle_admin_button cfg o uid sub w)).
Proof.
  assert (Hadm : never_forgets w (set_bot (get_admins cfg (w_bot w)) w)).
  { split; [apply get_admins_grows|apply db_grows_refl]. }
  apply (never_forgets_trans _ _ _ Hadm). unfold handle_admin_button.
  set (w1 := set_bot (get_admins cfg (w_bot w)) w).
  change (get_admins cfg (w_bot w)) with (w_bot w1).
  pose proof (confirm_poster_grows w1) as Hconf.
  repeat case_match; cbn [fst]; try apply never_forgets_refl; try done;
    (split; [|apply db_grows_refl]); cbn [w_bot set_bot set_user];
    eauto using admin_panel_result_grows, delete_current_poster_grows, bot_grows_refl.
Qed.

Lemma handle_buttons_grows cfg o uid username data w :
  never_forgets w (fst (handle_buttons cfg o uid username data w)).
Proof.
  assert (Hsame : ∀ u u', never_forgets w (set_user u' (set_user u w))).
  { intros u u'. split; [apply bot_grows_refl|apply db_grows_refl]. }
  unfold handle_buttons.
  repeat case_match; cbn [fst];
    first [ apply (Hsame ∅)
          | by split; [apply bot_grows_refl|apply db_grows_refl]
          | eapply never_forgets_trans; [|apply show_menu_caught_grows]; apply Hsame
          | eapply never_forgets_trans; [|apply handle_admin_button_grows];
            split; [apply bot_grows_refl|apply db_grows_refl]
          | split; [cbn [w_bot set_bot set_user];
                    eauto using admin_panel_result_grows, delete_poster_button_grows,
                                bot_grows_refl
                   |first [apply db_grows_refl | apply try_db_upsert_grows]] ].
Qed.

Lemma upsert_user_dom t tg_id name gender age vk_id username t' :
  upsert_user t tg_id name gender age vk_id username = Some t' → dom t ⊆ dom t'.
Proof.
  unfold upsert_user. case_match; [|done]. intros [= <-].
  rewrite dom_insert. set_solver.
Qed.

Lemma try_db_grows o d f :
  (∀ t t', f t = Some t' → dom t ⊆ dom t') → db_grows d (try_db o d f).
Proof.
  intros Hf. destruct d as [t|]; [|done]. cbn.
  destruct (upsert_raises o); [by exists t|].
  destruct (f t) as [t'|] eqn:E; [|by exists t].
  exists t'. split; [done|]. by apply Hf.
Qed.

Lemma handle_registration_step_grows o uid username text v w :
  never_forgets w (fst (handle_registration_step o uid username text v w)).
Proof.
  unfold handle_registration_step.
  repeat case_match; cbn [fst]; try apply never_forgets_refl;
    (split; [apply bot_grows_refl|]); cbn [w_db];
    apply try_db_grows; intros t t';
    repeat case_match; try done; apply upsert_user_dom.
Qed.

Lemma handle_vk_input_grows cfg o uid text w :
  never_forgets w (fst (handle_vk_input cfg o uid text w)).
Proof.
  unfold handle_vk_input. destruct w as [u b [t|]]; cbn [w_user w_bot w_db set_user];
    repeat case_match; cbn [fst];
    (split; [by split|]); cbn; try done; try (by exists t).
  eexists. split; [done|]. unfold set_vk_id. by rewrite dom_alter.
Qed.

Lemma handle_text_grows cfg o uid username text w :
  never_forgets w (fst (fst (handle_text cfg o uid username text w))).
Proof.
  unfold handle_text.
  pose proof (handle_lookup_frame cfg o text w) as Hlookup. cbv zeta in Hlookup.
  pose proof (handle_vk_input_grows cfg o uid text w) as Hvk.
  pose proof (handle_registration_step_grows o uid username text
                (get (w_user w) "registration_step") w) as Hreg.
  unfold handle_draft_text.
  repeat case_match; simplify_eq; cbn [fst]; try apply never_forgets_refl; try done;
    first [ destruct Hlookup as [-> | ->];
              (split; [apply bot_grows_refl|apply db_grows_refl])
          | split; [apply bot_grows_refl|apply db_grows_refl]
          | split; [apply set_ticket_url_grows|apply db_grows_refl] ].
Qed.

Lemma start_grows o uid username w :
  never_forgets w (fst (start o uid username w))
  ∧ uid ∈ known_users (w_bot (fst (start o uid username w))).
Proof.
  unfold start.
  repeat case_match; cbn [fst w_bot];
    (split; [split; [split; [cbn; set_solver|done]|apply try_db_upsert_grows]
            |cbn; set_solver]).
Qed.

Lemma menu_grows cfg o uid w :
  never_forgets w (fst (fst (menu cfg o uid w)))
  ∧ uid ∈ known_users (w_bot (fst (fst (menu cfg o uid w)))).
Proof.
  unfold menu.
  set (w1 := World (load_user_data_from_db o uid (w_db w) (w_user w))
               (add_known_user uid (w_bot w)) (w_db w)).
  assert (H1 : never_forgets w w1).
  { split; [split; [cbn; set_solver|done]|apply db_grows_refl]. }
  assert (Hin : uid ∈ known_users (w_bot w1)) by (cbn; set_solver).
  case_match; cbn [fst]; [done|].
  pose proof (show_main_menu_grows cfg o uid w1) as H2.
  split; [by eapply never_forgets_trans|].
  destruct H2 as [[Hk _] _]. by apply Hk.
Qed.

(** No update takes a user out of the known users, an administrator out of
    the administrators or a row out of the table, and none makes the
    connection pool appear or disappear; [/start] and [/menu] make their
    sender a known user. *)
Theorem handlers_never_forget cfg o uid username e w :
  let w' := step cfg o uid username e w in
  known_users (w_bot w) ⊆ known_users (w_bot w')
  ∧ admins (w_bot w) ⊆ admins (w_bot w')
  ∧ match w_db w with
    | Some t => ∃ t', w_db w' = Some t' ∧ dom t ⊆ dom t'
    | None => w_db w' = None
    end
  ∧ match e with
    | CmdStart | CmdMenu => uid ∈ known_users (w_bot w')
    | _ => True
    end.
Proof.
  intros w'. subst w'.
  assert (Hgoal : never_forgets w (step cfg o uid username e w)
                  ∧ match e with
                    | CmdStart | CmdMenu =>
                        uid ∈ known_users (w_bot (step cfg o uid username e w))
                    | _ => True
                    end).
  { destruct e; cbn [step].
    - apply start_grows.
    - apply menu_grows.
    - split; [|done]. split; [apply admin_panel_grows|apply db_grows_refl].
    - split; [|done]. apply never_forgets_refl.
    - split; [|done]. apply handle_buttons_grows.
    - split; [|done]. apply handle_text_grows.
    - split; [|done]. unfold handle_photo.
      repeat case_match; cbn [fst];
        (split; [apply bot_grows_refl|apply db_grows_refl]). }
  destruct Hgoal as [[[Hk Ha] Hd] He]. done.
Qed.

(** *** Who is an administrator *)


(** *** The characters of a valid link *)

Lemma accepts_char_dead r c :
  accepts_char r c = false → regex_dead (Re.deriv c r) = true.
Proof.
  induction r as [| |p|a IHa b IHb|a IHa b IHb|a IHa]; cbn; try done.
  - by intros ->.
  - intros [Ha Hb]%orb_false_iff.
    destruct (Re.nullable a); cbn; rewrite (IHa Ha), ?(IHb Hb); done.
  - intros [Ha Hb]%orb_false_iff. by rewrite (IHa Ha), (IHb Hb).
  - intros Ha. by rewrite (IHa Ha).
Qed.

Lemma accepts_char_deriv r c d :
  accepts_char (Re.deriv d r) c = true → accepts_char r c = true.
Proof.
  induction r as [| |p|a IHa b IHb|a IHa b IHb|a IHa]; cbn; try done.
  - by destruct (p d).
  - destruct (Re.nullable a); cbn; rewrite !orb_true_iff;
      [intros [[H|H]|H]|intros [H|H]]; auto.
  - rewrite !orb_true_iff. intros [H|H]; auto.
  - rewrite !orb_true_iff. intros [H|H]; auto.
Qed.

(** A text matched by [r] consists of characters of its classes. *)
Lemma fullmatch_chars s : ∀ r,
  Re.fullmatch r s = true → Py.all_chars (accepts_char r) s = true.
Proof.
  induction s as [|c s IH]; intros r; [done|]. cbn. intros Hm.
  apply andb_true_iff. split.
  - destruct (accepts_char r c) eqn:E; [done|].
    by rewrite (fullmatch_dead s _ (accepts_char_dead r c E)) in Hm.
  - specialize (IH _ Hm). clear Hm. induction s as [|d s IHs]; [done|].
    cbn in *. apply andb_true_iff in IH as [Hd Hs]. apply andb_true_iff. split.
    + by eapply accepts_char_deriv.
    + by apply IHs.
Qed.

(** Every character the pattern of [is_valid_url] lets through is a word
    character or one of the listed punctuation marks, and none of them is
    white space. *)
Lemma url_pattern_alphabet c :
  accepts_char url_pattern c = true →
  path_char c = true ∧ Py.isspace c = false.
Proof.
  destruct c as [[] [] [] [] [] [] [] []]; vm_compute; intros H;
    first [discriminate H | by split].
Qed.

(** What [rstrip] returns does not end with a character it strips. *)
Lemma rstrip_by_last p s : ∀ k c,
  Py.drop k (Py.rstrip_by p s) = String c EmptyString → p c = false.
Proof.
  induction s as [|a r IH]; intros k c; [by destruct k|].
  cbn [Py.rstrip_by]. destruct (Py.rstrip_by p r) as [|b r'] eqn:Hr.
  - destruct (p a) eqn:Hpa; [by destruct k|].
    destruct k as [|k]; cbn; [by intros [= <-]|by destruct k].
  - destruct k as [|k]; cbn [Py.drop]; [done|]. apply IH.
Qed.

Lemma chop_newline_strip s : Re.chop_newline (Py.strip s) = None.
Proof.
  unfold Re.chop_newline. destruct (String.eqb _ _) eqn:E; [|done].
  apply String.eqb_eq in E. unfold Py.strip in E.
  by apply rstrip_by_last in E.
Qed.

(** Stripping twice is stripping once. *)
Lemma lstrip_by_fixed p s :
  match s with String c _ => p c = false | EmptyString => True end →
  Py.lstrip_by p s = s.
Proof. destruct s as [|c r]; [done|]. cbn. by intros ->. Qed.

Lemma lstrip_by_head p s :
  match Py.lstrip_by p s with String c _ => p c = false | EmptyString => True end.
Proof.
  induction s as [|c r IH]; [done|]. cbn. destruct (p c) eqn:E; [done|]. by cbn.
Qed.

Lemma rstrip_by_head p s :
  match s with String c _ => p c = false | EmptyString => True end →
  match Py.rstrip_by p s with String c _ => p c = false | EmptyString => True end.
Proof.
  destruct s as [|c r]; [done|]. cbn. intros Hc.
  destruct (Py.rstrip_by p r); [by rewrite Hc|done].
Qed.

Lemma rstrip_by_idem p s : Py.rstrip_by p (Py.rstrip_by p s) = Py.rstrip_by p s.
Proof.
  induction s as [|c r IH]; [done|]. cbn [Py.rstrip_by].
  destruct (Py.rstrip_by p r) as [|b r'] eqn:Hr.
  - destruct (p c) eqn:Hc; [done|]. cbn. by rewrite Hc.
  - remember (String b r') as t eqn:Ht.
    cbn [Py.rstrip_by]. rewrite IH. by subst t.
Qed.

Lemma strip_idem s : Py.strip (Py.strip s) = Py.strip s.
Proof.
  unfold Py.strip.
  rewrite (lstrip_by_fixed _ (Py.rstrip_by _ _)); [apply rstrip_by_idem|].
  apply rstrip_by_head, lstrip_by_head.
Qed.

Lemma all_chars_impl (p q : ascii → bool) s :
  (∀ c, p c = true → q c = true) →
  Py.all_chars p s = true → Py.all_chars q s = true.
Proof.
  intros Hpq. induction s as [|c r IH]; [done|]. cbn.
  intros [Hc Hr]%andb_true_iff. by rewrite (Hpq c Hc), (IH Hr).
Qed.

(** [is_valid_url] judges the stripped text only: white space around a
    link does not matter, and the case of [$] before a final newline never
    applies.  An accepted link, once stripped, matches the pattern as a
    whole; it consists of word characters and the punctuation marks the
    pattern lists, so it holds no white space. *)
Theorem is_valid_url_reads_stripped_text url :
  is_valid_url url = is_valid_url (Py.strip url)
  ∧ is_valid_url url
    = Py.nonempty url && Re.fullmatch url_pattern (Py.strip url)
  ∧ (is_valid_url url = true →
     Py.all_chars path_char (Py.strip url) = true
     ∧ Py.all_chars (fun c => negb (Py.isspace c)) (Py.strip url) = true).
Proof.
  assert (Hrun : ∀ u, is_valid_url u
                      = Py.nonempty u && Re.fullmatch url_pattern (Py.strip u)).
  { intros u. unfold is_valid_url, Re.match_anchored.
    rewrite chop_newline_strip, orb_false_r. by destruct (Py.nonempty u). }
  split; [|split; [apply Hrun|]].
  - rewrite !Hrun, strip_idem.
    destruct url as [|c r]; [done|]. cbn [Py.nonempty andb].
    destruct (Py.strip (String c r)); [done|]. done.
  - rewrite Hrun. intros [_ Hm]%andb_true_iff.
    apply fullmatch_chars in Hm. split.
    + revert Hm. apply all_chars_impl. intros c Hc. by apply url_pattern_alphabet.
    + revert Hm. apply all_chars_impl. intros c Hc.
      by destruct (url_pattern_alphabet c Hc) as [_ ->].
Qed.

(** *** The keys the handlers write *)

(** A key outside [handler_keys] differs from each of them. *)
Ltac other_key H :=
  repeat (apply not_elem_of_cons in H as [? H]).

Lemma handle_admin_button_other_keys cfg o uid sub w k :
  k ∉ handler_keys →
  w_user (fst (handle_admin_button cfg o uid sub w)) !! k = w_user w !! k.
Proof.
  intros Hk. unfold handler_keys in Hk. other_key Hk.
  unfold handle_admin_button.
  pose proof (confirm_poster_other_keys (set_bot (get_admins cfg (w_bot w)) w) k)
    as Hconf.
  repeat case_match; cbn [fst w_user set_user set_bot] in *; skip_writes; auto.
Qed.

Lemma handle_buttons_other_keys cfg o uid username data w k :
  k ∉ handler_keys →
  w_user (fst (handle_buttons cfg o uid username data w)) !! k = w_user w !! k.
Proof.
  intros Hk. pose proof (handle_admin_button_other_keys cfg o uid) as Hadm.
  unfold handler_keys in Hk. pose proof Hk as Hk'. other_key Hk.
  unfold handle_buttons.
  repeat case_match; cbn [fst w_user set_user set_bot];
    rewrite ?show_menu_caught_user by done;
    rewrite ?Hadm by done;
    cbn [fst w_user set_user set_bot]; skip_writes;
    rewrite ?point_to_newest_other_keys by done; skip_writes;
    rewrite ?load_other_keys by done; done.
Qed.

Lemma handle_text_other_keys cfg o uid username text w k :
  k ∉ handler_keys →
  w_user (fst (fst (handle_text cfg o uid username text w))) !! k = w_user w !! k.
Proof.
  intros Hk. unfold handler_keys in Hk. other_key Hk.
  unfold handle_text.
  pose proof (handle_lookup_frame cfg o text w) as Hlookup. cbv zeta in Hlookup.
  assert (Hreg : ∀ v, w_user (fst (handle_registration_step o uid username text v w)) !! k
                      = w_user w !! k).
  { intros v. unfold handle_registration_step.
    repeat case_match; cbn [fst w_user]; skip_writes; done. }
  assert (Hvk : w_user (fst (handle_vk_input cfg o uid text w)) !! k = w_user w !! k).
  { unfold handle_vk_input.
    repeat case_match; cbn [fst w_user set_user]; skip_writes; done. }
  assert (Hlk : w_user (fst (handle_lookup cfg o text w)) !! k = w_user w !! k).
  { destruct Hlookup as [-> | ->]; cbn [w_user set_user]; skip_writes; done. }
  unfold handle_draft_text.
  repeat case_match; simplify_eq; cbn [fst w_user set_user]; skip_writes; done.
Qed.

(** A key the handlers do not write keeps its value through every update.
    The two keys of the weekly re-engagement pass are such keys: nothing a
    user sends records an attended week or resets the count of missed
    weeks. *)
Theorem handlers_write_only_their_keys cfg o uid username e w k :
  k ∉ handler_keys →
  w_user (step cfg o uid username e w) !! k = w_user w !! k.
Proof.
  intros Hk. destruct e; cbn [step].
  - unfold handler_keys in Hk. other_key Hk. unfold start.
    repeat case_match; cbn [fst w_user]; skip_writes;
      by rewrite load_other_keys.
  - unfold handler_keys in Hk. other_key Hk. unfold menu.
    case_match; cbn [fst w_user].
    + by rewrite load_other_keys.
    + rewrite show_main_menu_user by done. cbn [w_user w_db].
      by rewrite !load_other_keys.
  - done.
  - done.
  - by apply handle_buttons_other_keys.
  - by apply handle_text_other_keys.
  - unfold handler_keys in Hk. other_key Hk. unfold handle_photo.
    repeat case_match; cbn [fst w_user set_user]; skip_writes; done.
Qed.

Lemma handlers_write_only_their_keys_witness :
  w_user (step vk_on no_failures 7 None (Text "hello")
            (offline {["attended_weeks" := VSet {["2024-W10"]}]}))
    !! "attended_weeks"
  = w_user (offline {["attended_weeks" := VSet {["2024-W10"]}]}) !! "attended_weeks".
Proof.
  apply (handlers_write_only_their_keys vk_on no_failures 7 None (Text "hello")
           (offline {["attended_weeks" := VSet {["2024-W10"]}]}) "attended_weeks").
  unfold handler_keys. rewrite !not_elem_of_cons. repeat split; try done.
  apply not_elem_of_nil.
Defined.

(** *** Reading an administrator's id *)

Lemma isdigit_char_plain c :
  Py.isdigit_char c = true →
  Py.int_space c = false ∧ Ascii.eqb c "_" = false
  ∧ ∀ r, Py.int_signed (String c r) = Py.int_digits 0 false (String c r).
Proof.
  destruct c as [[] [] [] [] [] [] [] []]; vm_compute; intros H;
    first [discriminate H | by repeat split].
Qed.

Lemma rstrip_by_none p s :
  Py.all_chars (fun c => negb (p c)) s = true → Py.rstrip_by p s = s.
Proof.
  induction s as [|c r IH]; [done|]. cbn.
  intros [Hc Hr]%andb_true_iff. rewrite (IH Hr).
  destruct r; [|done]. by destruct (p c).
Qed.

(** [int()] on a string of digits reads the digits themselves. *)
Lemma int_of_digits s :
  Py.isdigit s = true → Py.int s = Py.int_digits 0 false s.
Proof.
  unfold Py.isdigit, Py.int. intros [Hne Hall]%andb_true_iff.
  destruct s as [|c r]; [done|]. cbn in Hall.
  apply andb_true_iff in Hall as [Hc Hr].
  destruct (isdigit_char_plain c Hc) as (Hsp & _ & Hsigned).
  rewrite (lstrip_by_fixed _ (String c r)) by done.
  rewrite rstrip_by_none; [apply Hsigned|].
  cbn. rewrite Hsp. cbn. revert Hr. apply all_chars_impl.
  intros d Hd. by destruct (isdigit_char_plain d Hd) as (-> & _).
Qed.

Lemma int_digits_decimal s : ∀ acc seen,
  Py.all_chars Py.isdecimal s = true →
  Py.int_digits acc seen s
  = match s with
    | EmptyString => if seen then Some acc else None
    | String _ _ => Some (decimal_value acc s)
    end.
Proof.
  induction s as [|c r IH]; intros acc seen; [done|]. cbn.
  intros [Hc Hr]%andb_true_iff. unfold Py.digit_of. rewrite Hc.
  rewrite (IH _ true Hr). by destruct r.
Qed.

Lemma int_digits_superscript s : ∀ acc seen,
  Py.all_chars Py.isdigit_char s = true →
  Py.all_chars Py.isdecimal s = false →
  Py.int_digits acc seen s = None.
Proof.
  induction s as [|c r IH]; intros acc seen; [done|]. cbn.
  intros [Hc Hr]%andb_true_iff Hdec. unfold Py.digit_of.
  destruct (Py.isdecimal c) eqn:Hd.
  - cbn in Hdec. by apply IH.
  - destruct (isdigit_char_plain c Hc) as (_ & -> & _). done.
Qed.

Lemma decimal_value_ge s : ∀ acc,
  Py.all_chars Py.isdecimal s = true → 0 ≤ acc → acc ≤ decimal_value acc s.
Proof.
  induction s as [|c r IH]; intros acc; [cbn; lia|]. cbn.
  intros [Hc Hr]%andb_true_iff Hacc.
  assert (0 ≤ Py.code c - 48).
  { unfold Py.isdecimal, Py.between in Hc. lia. }
  specialize (IH (10 * acc + (Py.code c - 48)) Hr). lia.
Qed.

(** The id of an administrator is read as follows.  A setting made of
    decimal digits gives the number they denote, which is never negative.
    A setting that is not all digits for [str.isdigit] (empty, signed,
    with letters or spaces) gives 0, which stands for no administrator.
    A setting that [str.isdigit] accepts but that holds a digit other than
    0..9, such as a superscript two, makes [int()] raise. *)
Theorem admin_id_of_reads_decimal_digits s :
  match admin_id_of s with
  | Some n =>
      0 ≤ n
      ∧ (Py.isdigit s = false → n = 0)
      ∧ (Py.isdigit s = true →
         Py.all_chars Py.isdecimal s = true ∧ n = decimal_value 0 s)
  | None => Py.isdigit s = true ∧ Py.all_chars Py.isdecimal s = false
  end
  ∧ (Py.nonempty s = true → Py.all_chars Py.isdecimal s = true →
     admin_id_of s = Some (decimal_value 0 s))
  ∧ (Py.isdigit s = true → Py.all_chars Py.isdecimal s = false →
     admin_id_of s = None).
Proof.
  assert (Hdec : Py.nonempty s = true → Py.all_chars Py.isdecimal s = true →
                 admin_id_of s = Some (decimal_value 0 s)).
  { intros Hne Hall. unfold admin_id_of.
    assert (Hd : Py.isdigit s = true).
    { unfold Py.isdigit. rewrite Hne. cbn. revert Hall. apply all_chars_impl.
      intros c Hc. unfold Py.isdigit_char. by rewrite Hc. }
    rewrite Hd, (int_of_digits s Hd), (int_digits_decimal s 0 false Hall).
    by destruct s. }
  assert (Hsup : Py.isdigit s = true → Py.all_chars Py.isdecimal s = false →
                 admin_id_of s = None).
  { intros Hd Hall. unfold admin_id_of. rewrite Hd, (int_of_digits s Hd).
    apply int_digits_superscript; [|done].
    unfold Py.isdigit in Hd. by apply andb_true_iff in Hd as [_ ?]. }
  split; [|by split].
  destruct (Py.isdigit s) eqn:Hd.
  - destruct (Py.all_chars Py.isdecimal s) eqn:Hall.
    + assert (Hne : Py.nonempty s = true).
      { unfold Py.isdigit in Hd. by apply andb_true_iff in Hd as [? _]. }
      rewrite (Hdec Hne eq_refl). split; [|by split].
      by apply decimal_value_ge.
    + by rewrite (Hsup eq_refl eq_refl).
  - unfold admin_id_of. rewrite Hd. by repeat split.
Qed.

Lemma admin_id_of_reads_decimal_digits_example :
  admin_id_of (_clean_env (Some " '42' ")) = Some 42
  ∧ admin_id_of (_clean_env (Some "-42")) = Some 0
  ∧ admin_id_of (_clean_env None) = Some 0.
Proof. by vm_compute. Qed.

(** *** Cleaning a setting *)

Lemma append_nil t : String.append EmptyString t = t.
Proof. reflexivity. Qed.

Lemma append_cons a r t : String.append (String a r) t = String a (String.append r t).
Proof. reflexivity. Qed.

Lemma rstrip_by_snoc p q s :
  p q = false →
  Py.rstrip_by p (String.append s (String q EmptyString))
  = String.append s (String q EmptyString).
Proof.
  intros Hq. induction s as [|a r IH].
  - rewrite append_nil. cbn. by rewrite Hq.
  - rewrite append_cons. cbn [Py.rstrip_by]. rewrite IH.
    destruct r; [by rewrite append_nil|by rewrite append_cons].
Qed.

Lemma endswith_char_snoc q s :
  endswith_char q (String.append s (String q EmptyString)) = true.
Proof.
  induction s as [|a r IH].
  - rewrite append_nil. cbn. apply Ascii.eqb_refl.
  - rewrite append_cons. destruct r as [|b r'].
    + rewrite append_nil in *. cbn. apply Ascii.eqb_refl.
    + rewrite append_cons in *. exact IH.
Qed.

Lemma take_snoc q s :
  Py.take (String.length s) (String.append s (String q EmptyString)) = s.
Proof.
  induction s as [|a r IH]; [done|]. rewrite append_cons. cbn. by f_equal.
Qed.

Lemma length_snoc q s :
  String.length (String.append s (String q EmptyString)) = S (String.length s).
Proof.
  induction s as [|a r IH]; [done|]. rewrite append_cons. cbn. by f_equal.
Qed.

(** A value whose stripped text stands between two quotes [q] loses the
    pair, and what was between them is stripped. *)
Lemma clean_env_quoted q x s :
  q = double_quote ∨ q = single_quote →
  Py.strip x = String q (String.append s (String q EmptyString)) →
  _clean_env (Some x) = Py.strip s.
Proof.
  intros Hq Hx. unfold _clean_env. cbn [default from_option id].
  rewrite Hx. cbv zeta.
  assert (Hend : endswith_char q (String q (String.append s (String q EmptyString)))
                 = true)
    by (rewrite <- append_cons; apply endswith_char_snoc).
  assert (Hinner : inner (String q (String.append s (String q EmptyString))) = s).
  { unfold inner. cbn [String.length Py.drop]. rewrite length_snoc.
    replace (S (S (String.length s)) - 2)%nat with (String.length s) by lia.
    apply take_snoc. }
  rewrite Hinner.
  destruct Hq as [-> | ->]; rewrite Hend; cbn [startswith_char];
    rewrite ?Ascii.eqb_refl; cbn; done.
Qed.

(** [_clean_env] returns a text without white space around it.  A value
    that, once stripped, stands between two double quotes or between two
    single quotes loses that one pair and is stripped again, whatever
    white space was around the quotes; a stripped value that is one quote
    alone becomes empty.  A value whose stripped text does not start with
    a quote, or does not end with the quote it starts with, keeps its
    stripped text, and a missing value reads as the empty string.
    [_get_env] cleans the variable of the process when it is set and not
    empty, else the value of the [.env] file, else the default. *)
Theorem clean_env_removes_one_pair_of_quotes v :
  Py.strip (_clean_env v) = _clean_env v
  ∧ _clean_env None = ""
  ∧ (∀ q x s, q = double_quote ∨ q = single_quote →
       Py.strip x = String q (String.append s (String q EmptyString)) →
       _clean_env (Some x) = Py.strip s)
  ∧ (∀ q s, q = double_quote ∨ q = single_quote →
       _clean_env (Some (String q (String.append s (String q EmptyString))))
       = Py.strip s)
  ∧ _clean_env (Some " '42' ") = "42"
  ∧ (∀ q x, q = double_quote ∨ q = single_quote →
       Py.strip x = String q EmptyString → _clean_env (Some x) = "")
  ∧ (∀ s, startswith_char double_quote (Py.strip s) = false →
          startswith_char single_quote (Py.strip s) = false →
          _clean_env (Some s) = Py.strip s)
  ∧ (∀ q q' x, q = double_quote ∧ q' = single_quote
               ∨ q = single_quote ∧ q' = double_quote →
       startswith_char q (Py.strip x) = true →
       endswith_char q (Py.strip x) = false →
       _clean_env (Some x) = Py.strip x)
  ∧ (∀ environ fallback key dflt,
       _get_env environ fallback key dflt
       = match environ !! key with
         | Some s =>
             if Py.nonempty s then _clean_env (Some s)
             else _clean_env (default (Some dflt) (fallback !! key))
         | None => _clean_env (default (Some dflt) (fallback !! key))
         end).
Proof.
  split; [|split; [done|split; [|split; [|split; [|split; [|split; [|split]]]]]]].
  - unfold _clean_env. cbv zeta. case_match; apply strip_idem.
  - apply clean_env_quoted.
  - intros q s Hq. apply (clean_env_quoted q); [done|].
    assert (Hsp : Py.isspace q = false) by (by destruct Hq as [-> | ->]).
    unfold Py.strip. rewrite (lstrip_by_fixed _ (String q _)) by done.
    rewrite <- append_cons. by apply rstrip_by_snoc.
  - apply (clean_env_quoted single_quote _ "42"); [by right|by vm_compute].
  - intros q x Hq Hx. unfold _clean_env. cbn [default from_option id].
    rewrite Hx. cbv zeta.
    destruct Hq as [-> | ->]; by vm_compute.
  - intros s H1 H2. unfold _clean_env. cbn [default from_option id]. cbv zeta.
    by rewrite H1, H2.
  - intros q q' x Hq Hs He. unfold _clean_env. cbn [default from_option id].
    cbv zeta.
    assert (Hq' : startswith_char q' (Py.strip x) = false).
    { destruct (Py.strip x) as [|c r]; [done|]. cbn [startswith_char] in *.
      apply Ascii.eqb_eq in Hs as <-.
      by destruct Hq as [[-> ->] | [-> ->]]. }
    destruct Hq as [[-> ->] | [-> ->]]; by rewrite Hs, He, Hq'.
  - intros environ fallback key dflt. unfold _get_env.
    destruct (environ !! key) as [s|]; [|done]. by destruct (Py.nonempty s).
Qed.

(** *** Start-up *)

(** When the database answers, start-up replaces the known users by the
    users who have a row (a user known before and without a row is known
    no more) and the cache of VK ids by the VK ids of the table; posters
    and administrators stay.  When the pool cannot be made, nothing
    changes and there is no pool; when the first query raises, the pool is
    kept and nothing else changes.  The cache entry that linking a VK id
    writes is the one start-up would load from the updated table, if the
    user has a row. *)
Theorem startup_loads_users_from_table t b :
  let b' := fst (_on_startup (Some t) false false b) in
  snd (_on_startup (Some t) false false b) = Some t
  ∧ (∀ k, k ∈ known_users b' ↔ is_Some (get_user t k))
  ∧ (∀ k v, user_vk_cache b' !! k = Some v
            ↔ ∃ r, get_user t k = Some r ∧ r_vk_id r = Some v)
  ∧ poster b' = poster b ∧ all_posters b' = all_posters b
  ∧ objects b' = objects b ∧ admins b' = admins b
  ∧ (∀ i v, _on_startup None i v b = (b, None))
  ∧ (∀ v, _on_startup (Some t) true v b = (b, Some t))
  ∧ (∀ uid h, is_Some (get_user t uid) →
       load_user_vk_data (set_vk_id t uid h) = <[uid := h]> (load_user_vk_data t)).
Proof.
  intros b'. subst b'. cbn [_on_startup fst snd].
  split; [done|]. split.
  { intros k. cbn. unfold get_all_user_ids, get_user.
    rewrite <- elem_of_dom. by rewrite (dom_alt (D := gset Z) t). }
  split.
  { intros k v. cbn. unfold load_user_vk_data, get_user. rewrite lookup_omap.
    destruct (t !! k) as [r|]; cbn.
    - split; [by exists r|by intros (r' & [= <-] & ?)].
    - split; [done|by intros (? & ? & _)]. }
  split; [done|]. split; [done|]. split; [done|]. split; [done|].
  split; [done|]. split; [done|].
  intros uid h [r Hr]. unfold get_user in Hr. apply map_eq. intros k.
  unfold load_user_vk_data, set_vk_id. rewrite lookup_omap.
  destruct (decide (k = uid)) as [->|Hne].
  - by rewrite lookup_alter_eq, lookup_insert_eq, Hr.
  - by rewrite lookup_alter_ne, lookup_insert_ne, lookup_omap.
Qed.

(** *** The hour of the weekly broadcast *)

(** Whatever integer the setting [WEEKLY_HOUR] holds, the hour handed to
    the job queue is an hour of the day, so [time(hour=...)] accepts it;
    three hours later it is the configured hour again, modulo 24.  For a
    configured hour from 3 to 23 that is on the same day; for 0, 1 and 2
    the UTC hour is 21, 22 and 23, and three hours later is the next
    day. *)
Theorem weekly_hour_utc_is_an_hour h :
  0 ≤ WEEKLY_HOUR_UTC h < 24
  ∧ (WEEKLY_HOUR_UTC h + 3) mod 24 = h mod 24
  ∧ (WEEKLY_HOUR_UTC h + 3) / 24 = (if h mod 24 <? 3 then 1 else 0)
  ∧ (0 ≤ h < 24 →
     WEEKLY_HOUR_UTC h = if h <? 3 then h + 21 else h - 3).
Proof.
  unfold WEEKLY_HOUR_UTC.
  pose proof (Z.mod_pos_bound (h - 3) 24 ltac:(lia)) as Hb.
  assert (Hm : (h - 3) mod 24 = if h mod 24 <? 3 then h mod 24 + 21 else h mod 24 - 3).
  { pose proof (Z.mod_pos_bound h 24 ltac:(lia)) as Hh.
    pose proof (Z.div_mod h 24 ltac:(lia)) as Hd.
    destruct (h mod 24 <? 3) eqn:E.
    - apply Z.ltb_lt in E. symmetry.
      apply (Z.mod_unique_pos (h - 3) 24 (h / 24 - 1)); lia.
    - apply Z.ltb_ge in E. symmetry.
      apply (Z.mod_unique_pos (h - 3) 24 (h / 24)); lia. }
  split; [lia|]. rewrite Hm.
  pose proof (Z.mod_pos_bound h 24 ltac:(lia)) as Hh.
  split; [|split].
  - destruct (h mod 24 <? 3) eqn:E.
    + apply Z.ltb_lt in E. symmetry.
      apply (Z.mod_unique_pos (h mod 24 + 21 + 3) 24 1); lia.
    + apply Z.ltb_ge in E. replace (h mod 24 - 3 + 3) with (h mod 24) by lia.
      apply Z.mod_small. lia.
  - destruct (h mod 24 <? 3) eqn:E.
    + apply Z.ltb_lt in E. symmetry.
      apply (Z.div_unique_pos (h mod 24 + 21 + 3) 24 1 (h mod 24)); lia.
    + apply Z.ltb_ge in E. apply Z.div_small. lia.
  - intros Hr. by rewrite (Z.mod_small h 24 Hr).
Qed.

(** *** Loading twice, and the VK id a load leaves *)

(** Loading a user a second time changes nothing more.  Without a pool, or
    when the query raises, a load changes nothing at all.  When the user
    has a row, its VK id is copied if it is not empty; a row without one
    leaves the VK id of the dictionary as it was, so a value that is no
    longer in the table stays.  When the user has no row the VK id is
    removed. *)
Theorem load_user_data_twice_is_once o uid d u :
  let u' := load_user_data_from_db o uid d u in
  load_user_data_from_db o uid d u' = u'
  ∧ match d with
    | None => u' = u
    | Some t =>
        if get_user_raises o then u' = u
        else match get_user t uid with
             | Some r =>
                 if ptruthy (r_vk_id r) then u' !! "vk_id" = Some (of_text (r_vk_id r))
                 else u' !! "vk_id" = u !! "vk_id"
             | None => u' !! "vk_id" = None
             end
    end.
Proof.
  intros u'. subst u'. unfold load_user_data_from_db.
  destruct d as [t|]; [|done].
  destruct (get_user_raises o); [done|].
  destruct (get_user t uid) as [r|].
  - assert (Hvk : truthy (of_text (r_vk_id r)) = ptruthy (r_vk_id r))
      by (by destruct (r_vk_id r)).
    rewrite Hvk.
    destruct (ptruthy (r_vk_id r)); (split; [|by read_key]);
      apply map_eq; intros k;
      (destruct (decide (k = "registered")) as [->|?]; [by read_key|]);
      (destruct (decide (k = "vk_id")) as [->|?]; [by read_key|]);
      (destruct (decide (k = "age")) as [->|?]; [by read_key|]);
      (destruct (decide (k = "gender")) as [->|?]; [by read_key|]);
      (destruct (decide (k = "name")) as [->|?]; [by read_key|]);
      by read_key.
  - split; [|by read_key].
    apply map_eq; intros k;
      (destruct (decide (k = "registered")) as [->|?]; [by read_key|]);
      (destruct (decide (k = "vk_id")) as [->|?]; [by read_key|]);
      (destruct (decide (k = "age")) as [->|?]; [by read_key|]);
      (destruct (decide (k = "gender")) as [->|?]; [by read_key|]);
      (destruct (decide (k = "name")) as [->|?]; [by read_key|]);
      by read_key.
Qed.

(** *** The gender button and the table *)



(** *** A ticket link set before any poster *)

(** When an administrator sets the ticket link while there is no poster
    at all, the dictionary made for the link, which has no photo, becomes
    the current poster; the next main menu of any user puts it into the
    list of posters and fails to show it; and the weekly broadcast sends
    that poster to every known user. *)
Theorem ticket_link_without_poster_is_listed cfg o uid url b u d :
  poster b = None → all_posters b = [] → index_well_typed u →
  let b1 := set_ticket_url url b in
  let r := show_main_menu cfg o uid (World u b1 d) in
  ∃ l, objects b !! l = None
       ∧ poster b1 = Some l ∧ all_posters b1 = []
       ∧ deref b1 l = {["ticket_url" := Some url]}
       ∧ snd r = Returned
       ∧ snd (fst r) = [MainMenuBanner; PosterFailed]
       ∧ all_posters (w_bot (fst (fst r))) = [l]
       ∧ do_weekly_broadcast cfg (w_bot (fst (fst r)))
         = if bool_decide (known_users b = ∅) then []
           else (map (fun k => PosterTo k l) (elements (known_users b))
                 ++ (if ADMIN_USER_ID cfg =? 0 then [] else [BroadcastReport]))%list.
Proof.
  intros Hp Hl Hidx b1 r. subst r b1.
  set (l := fresh (dom (objects b))).
  assert (Hb1 : set_ticket_url url b
                = set_poster (Some l)
                    (set_objects (<[l := {["ticket_url" := Some url]}]> (objects b)) b)).
  { unfold set_ticket_url. by rewrite Hp. }
  exists l. rewrite Hb1.
  set (b1 := set_poster (Some l) _).
  assert (Hderef : deref b1 l = {["ticket_url" := Some url]}).
  { unfold deref, b1. cbn. by rewrite lookup_insert_eq. }
  assert (Hposters : menu_posters b1 = [l]).
  { unfold menu_posters. cbn [poster b1 set_poster]. rewrite Hderef.
    assert (all_posters b1 = []) as -> by exact Hl.
    rewrite bool_decide_eq_false_2; [done|].
    intros Heq. apply (f_equal (lookup "ticket_url")) in Heq.
    by rewrite lookup_singleton_eq in Heq. }
  split; [apply not_elem_of_dom, is_fresh|]. split; [done|]. split; [exact Hl|].
  split; [exact Hderef|].
  unfold show_main_menu. cbn [w_bot w_user w_db]. rewrite Hposters.
  change (Z.of_nat (length [l])) with 1.
  set (u' := load_user_data_from_db o uid d u).
  assert (Hidx' : index_well_typed u').
  { unfold index_well_typed, u'. by rewrite load_other_keys. }
  pose proof (menu_index_cases u' 1 ltac:(lia) Hidx') as Hcase.
  assert (Hzero : snd (menu_index u' 1) = Some 0).
  { destruct (u' !! "current_poster_index") as [v|]; [|exact Hcase].
    destruct Hcase as (k & _ & ->). f_equal.
    destruct (k >=? 1) eqn:E1; [done|]. destruct (k <? 0) eqn:E2; [done|]. lia. }
  destruct (menu_index u' 1) as [u1 oi]. cbn [snd] in Hzero. subst oi.
  change (py_index [l] 0) with (Some l). cbn [fst snd w_bot].
  split; [done|]. split.
  { unfold send_menu_poster.
    assert (Hd : deref (set_all_posters [l] b1) l = {["ticket_url" := Some url]})
      by exact Hderef.
    rewrite Hd. by rewrite !lookup_singleton_ne. }
  split; [done|].
  unfold do_weekly_broadcast. cbn [known_users all_posters get_admins set_admins
    set_all_posters b1 set_poster set_objects last_poster last].
  by case_bool_decide.
Qed.

Lemma ticket_link_without_poster_is_listed_witness :
  snd (fst (show_main_menu vk_on no_failures 7
              (World ∅ (set_ticket_url "x" empty_bot) None)))
  = [MainMenuBanner; PosterFailed].
Proof.
  destruct (ticket_link_without_poster_is_listed vk_on no_failures 7 "x"
              empty_bot ∅ None)
    as (l & _ & _ & _ & _ & _ & Hsent & _).
  - reflexivity.
  - reflexivity.
  - vm_compute. exact I.
  - exact Hsent.
Defined.

(** *** Who may delete a poster *)

